(** * The activityLogPrivate extension API

    A shallow embedding of
    [chrome/browser/extensions/api/activity_log_private/activity_log_private_api.cc]:
    the per-profile [ActivityLogAPI] service (constructor, [Shutdown], the
    [OnExtensionActivity] observer callback) and the four extension
    functions ([getExtensionActivities], [deleteActivities], [deleteUrls],
    [deleteDatabase]).

    The file is glue between three collaborators that live elsewhere in the
    tree: the [EventRouter], the [ActivityLog] and the generated
    [api::activity_log_private] types.  Every call the code makes on a
    collaborator is recorded, in program order, in a trace; the statements
    below are about that trace and about the two observer lists. *)

From Stdlib Require Import Ascii.
From stdpp Require Import base option list strings numbers.

Local Open Scope Z_scope.

(** ** Types and helpers declared outside this file *)

(** The classes [Action], [ExtensionActivity] and [base::Value], the
    conversions between them, [base::StringToInt64] and the URL
    canonicaliser behind [GURL] are declared in headers that are not part
    of the sources: the embedding is parametric in them.

    [StringToInt64 s] gives the returned flag and the number stored through
    the output pointer. [Canonicalize s] is [None] for a malformed URL. *)
Class Collaborators := {
  Action : Type;
  ExtensionActivity : Type;
  Value : Type;
  ConvertToExtensionActivity : Action -> ExtensionActivity;
  ToValue : ExtensionActivity -> Value;
  StringToInt64 : string -> bool * Z;
  Canonicalize : string -> option string
}.

(** [content::BrowserContext*] and the [this] pointer of an observer are
    compared by address only. *)
Definition BrowserContext := nat.
Definition Observer := nat.

(** [Filter::ActivityType], generated from the IDL. The switch of
    [RunImpl] has a [default] label: [ACTIVITY_TYPE_other] stands for every
    value of the underlying integer type that is none of the seven
    enumerators named in this file. *)
Inductive ActivityType :=
  | ACTIVITY_TYPE_API_CALL
  | ACTIVITY_TYPE_API_EVENT
  | ACTIVITY_TYPE_CONTENT_SCRIPT
  | ACTIVITY_TYPE_DOM_ACCESS
  | ACTIVITY_TYPE_DOM_EVENT
  | ACTIVITY_TYPE_WEB_REQUEST
  | ACTIVITY_TYPE_ANY
  | ACTIVITY_TYPE_other (raw : Z).

#[global] Instance ActivityType_eq_dec : EqDecision ActivityType.
Proof. solve_decision. Defined.

(** [Action::ActionType], as far as this file names it. *)
Inductive ActionType :=
  | ACTION_API_CALL
  | ACTION_API_EVENT
  | ACTION_CONTENT_SCRIPT
  | ACTION_DOM_ACCESS
  | ACTION_DOM_EVENT
  | ACTION_WEB_REQUEST
  | ACTION_ANY.

(** [api::activity_log_private::Filter]: the optional members are
    [scoped_ptr]s, null when the caller left the field out. *)
Record Filter := {
  activity_type : ActivityType;
  extension_id : option string;
  api_call : option string;
  page_url : option string;
  arg_url : option string;
  days_ago : option Z
}.

(** Modelled from the spec: the constant
    [activity_log_private::OnExtensionActivity::kEventName] of the generated
    header, which is not part of the sources. The spec gives the event name
    as the literal [onExtensionActivity]. *)
Definition kEventName : string := "onExtensionActivity".

(** Modelled from the spec: class [GURL], which is not part of the sources.
    The spec says that parsing an empty or malformed string yields a
    structurally-empty URL; a well-formed string yields a valid URL holding
    its canonical spelling. *)
Record GURL := { spec_ : string; is_valid_ : bool }.

Definition GURL_empty : GURL := {| spec_ := ""; is_valid_ := false |}.

(** Modelled from the spec: the constructor [GURL (const std::string&)],
    which is not part of the sources. *)
Definition GURL_of `{Collaborators} (url_string : string) : GURL :=
  if decide (url_string = EmptyString) then GURL_empty
  else match Canonicalize url_string with
       | Some canonical => {| spec_ := canonical; is_valid_ := true |}
       | None => GURL_empty
       end.

(** Modelled from the spec: [base::StringToInt64], which is not part of the
    sources, as the spec words it: the string is read as a base-10 signed
    64-bit integer, an optional minus sign followed by decimal digits, and
    does not parse when it is anything else or out of range. *)
Definition digit_of (c : ascii) : option Z :=
  let n := Z.of_N (N_of_ascii c) in
  if bool_decide (48 <= n <= 57) then Some (n - 48) else None.

Fixpoint digits_value (acc : Z) (s : string) : option Z :=
  match s with
  | EmptyString => Some acc
  | String c rest =>
      match digit_of c with
      | Some d => digits_value (10 * acc + d) rest
      | None => None
      end
  end.

Definition kint64min : Z := - 2 ^ 63.
Definition kint64max : Z := 2 ^ 63 - 1.

(** Modelled from the spec: the base-10 signed 64-bit reading of a string,
    standing for the parser behind [base::StringToInt64], which is not
    part of the sources. *)
Definition decimal_int64 (s : string) : option Z :=
  match s with
  | EmptyString => None
  | String "-"%char EmptyString => None
  | String "-"%char rest =>
      match digits_value 0 rest with
      | Some v => if bool_decide (kint64min <= - v) then Some (- v) else None
      | None => None
      end
  | _ =>
      match digits_value 0 s with
      | Some v => if bool_decide (v <= kint64max) then Some v else None
      | None => None
      end
  end.

(** Modelled from the spec: [base::StringToInt64], which is not part of
    the sources: the flag it returns and the number it stores. *)
Definition StringToInt64_decimal (input : string) : bool * Z :=
  match decimal_int64 input with
  | Some v => (true, v)
  | None => (false, 0)
  end.

Section Api.

Context `{host : Collaborators}.

(** ** Collaborator calls and the state of the profile's services *)

(** [extensions::Event] as far as [OnExtensionActivity] fills it in. *)
Record Event := {
  event_name : string;
  event_args : list Value;
  restrict_to_browser_context : option BrowserContext
}.

(** [ActivityResultSet], the object behind [results_]. *)
Record ActivityResultSet := { activities : list ExtensionActivity }.

(** The completion callback handed to [GetFilteredActions] is always
    [base::Bind(&...::OnLookupCompleted, this)]. *)
Inductive Callback := Bind_OnLookupCompleted.

(** One constructor per collaborator method this file calls. *)
Inductive Call :=
  | RegisterObserver (observer : Observer) (name : string)
  | UnregisterObserver (observer : Observer)
  | AddObserver (observer : Observer)
  | RemoveObserver (observer : Observer)
  | BroadcastEvent (event : Event)
  | GetFilteredActions (extension_id : string) (type : ActionType)
      (api_call page_url arg_url : string) (days_ago : Z) (callback : Callback)
  | RemoveActions (action_ids : list Z)
  | RemoveURLs (gurls : list GURL)
  | DeleteDatabase
  | SendResponse (success : bool) (results : ActivityResultSet).

(** The services of the profile: [event_router ()] is null in a test
    profile, the activity log always exists ([DCHECK (activity_log)]).
    [trace] holds the calls made so far, oldest first. *)
Record World := {
  event_router : option (list (string * Observer));
  activity_log : list Observer;
  trace : list Call
}.

(** State and fault: [None] is a call through a null pointer. *)
Definition M (A : Type) : Type := World -> option (A * World).

#[local] Instance M_ret : MRet M := fun A a w => Some (a, w).

#[local] Instance M_bind : MBind M := fun A B k c w =>
  match c w with
  | Some (a, w') => k a w'
  | None => None
  end.

Definition fault {A} : M A := fun _ => None.

(** The world after one more recorded call. *)
Definition record_call (c : Call) (w : World) : World :=
  {| event_router := event_router w;
     activity_log := activity_log w;
     trace := trace w ++ [c] |}.

Definition call (c : Call) : M unit := fun w => Some (tt, record_call c w).

(** ** ActivityLogAPI *)

(** The members of [ActivityLogAPI]. [activity_log_] is left unassigned by
    the early return of the constructor. [this] is the address under which
    the object registers itself as an observer. *)
Record ActivityLogAPI := {
  this : Observer;
  browser_context_ : BrowserContext;
  activity_log_ : option BrowserContext;
  initialized_ : bool
}.

(** Modelled from the spec: [EventRouter::RegisterObserver] and
    [UnregisterObserver], which are not part of the sources. Registering
    adds one (event name, observer) registration; unregistering removes
    every registration of the observer. A null router faults. *)
Definition EventRouter_RegisterObserver (observer : Observer) (name : string) : M unit :=
  fun w => match event_router w with
           | Some observers =>
               Some (tt, {| event_router := Some (observers ++ [(name, observer)]);
                            activity_log := activity_log w;
                            trace := trace w ++ [RegisterObserver observer name] |})
           | None => None
           end.

Definition EventRouter_UnregisterObserver (observer : Observer) : M unit :=
  fun w => match event_router w with
           | Some observers =>
               Some (tt, {| event_router :=
                              Some (filter (fun r => snd r <> observer) observers);
                            activity_log := activity_log w;
                            trace := trace w ++ [UnregisterObserver observer] |})
           | None => None
           end.

Definition EventRouter_BroadcastEvent (event : Event) : M unit :=
  fun w => match event_router w with
           | Some _ => call (BroadcastEvent event) w
           | None => None
           end.

(** Modelled from the spec: [ActivityLog::AddObserver] and
    [RemoveObserver], which are not part of the sources. Adding appends one
    registration; removing takes the observer off the list. *)
Definition ActivityLog_AddObserver (observer : Observer) : M unit :=
  fun w => Some (tt, {| event_router := event_router w;
                        activity_log := activity_log w ++ [observer];
                        trace := trace w ++ [AddObserver observer] |}).

Definition ActivityLog_RemoveObserver (observer : Observer) : M unit :=
  fun w => Some (tt, {| event_router := event_router w;
                        activity_log := filter (fun o => o <> observer) (activity_log w);
                        trace := trace w ++ [RemoveObserver observer] |}).

(** [ExtensionSystem::Get (browser_context_)->event_router ()], tested
    against null. *)
Definition has_event_router : M bool :=
  fun w => Some (bool_decide (is_Some (event_router w)), w).

(** [ActivityLogAPI::ActivityLogAPI (content::BrowserContext* context)],
    for the object at address [self]. *)
Definition ActivityLogAPI_new (self : Observer) (context : BrowserContext)
  : M ActivityLogAPI :=
  router ← has_event_router;
  if negb router then
    mret {| this := self; browser_context_ := context;
           activity_log_ := None; initialized_ := false |}
  else
    EventRouter_RegisterObserver self kEventName;;
    ActivityLog_AddObserver self;;
    mret {| this := self; browser_context_ := context;
           activity_log_ := Some context; initialized_ := true |}.

(** [void ActivityLogAPI::Shutdown ()]. *)
Definition Shutdown (api : ActivityLogAPI) : M unit :=
  if negb (initialized_ api) then mret tt
  else
    EventRouter_UnregisterObserver (this api);;
    match activity_log_ api with
    | Some _ => ActivityLog_RemoveObserver (this api)
    | None => fault
    end.

(** [OnListenerAdded] and [OnListenerRemoved] have empty bodies. *)
Definition OnListenerAdded (api : ActivityLogAPI) : M unit := mret tt.
Definition OnListenerRemoved (api : ActivityLogAPI) : M unit := mret tt.

(** [void ActivityLogAPI::OnExtensionActivity (scoped_refptr<Action>)]. *)
Definition OnExtensionActivity (api : ActivityLogAPI) (activity : Action) : M unit :=
  let value : list Value := [] in
  let activity_arg := ConvertToExtensionActivity activity in
  let value := value ++ [ToValue activity_arg] in
  let event := {| event_name := kEventName;
                  event_args := value;
                  restrict_to_browser_context := None |} in
  let event := {| event_name := event_name event;
                  event_args := event_args event;
                  restrict_to_browser_context := Some (browser_context_ api) |} in
  EventRouter_BroadcastEvent event.

(** Modelled from the spec: the way the [ActivityLog], which is not part of
    the sources, reports a new action: the callback of every registered
    observer runs once per registration. Only the callbacks of [api] are
    followed; other observers are foreign objects. *)
Fixpoint notify_observers (api : ActivityLogAPI) (observers : list Observer)
    (activity : Action) : M unit :=
  match observers with
  | [] => mret tt
  | o :: rest =>
      (if decide (o = this api) then OnExtensionActivity api activity
       else mret tt);;
      notify_observers api rest activity
  end.

Definition ActivityLog_LogAction (api : ActivityLogAPI) (activity : Action) : M unit :=
  fun w => notify_observers api (activity_log w) activity w.

(** ** The extension functions *)

(** [EXTENSION_FUNCTION_VALIDATE (params.get ())]: when [Params::Create]
    gave null the function returns [false] at once. [params] below is the
    outcome of [Params::Create] on the arguments. *)

(** [bool ActivityLogPrivateGetExtensionActivitiesFunction::RunImpl ()]. *)
Definition GetExtensionActivities_RunImpl (params : option Filter) : M bool :=
  match params with
  | None => mret false
  | Some filter =>
      let action_type := ACTION_API_CALL in
      let action_type :=
        match activity_type filter with
        | ACTIVITY_TYPE_API_CALL => ACTION_API_CALL
        | ACTIVITY_TYPE_API_EVENT => ACTION_API_EVENT
        | ACTIVITY_TYPE_CONTENT_SCRIPT => ACTION_CONTENT_SCRIPT
        | ACTIVITY_TYPE_DOM_ACCESS => ACTION_DOM_ACCESS
        | ACTIVITY_TYPE_DOM_EVENT => ACTION_DOM_EVENT
        | ACTIVITY_TYPE_WEB_REQUEST => ACTION_WEB_REQUEST
        | ACTIVITY_TYPE_ANY => ACTION_ANY
        | ACTIVITY_TYPE_other _ => ACTION_ANY
        end in
      let extension_id' :=
        match extension_id filter with Some s => s | None => EmptyString end in
      let api_call' :=
        match api_call filter with Some s => s | None => EmptyString end in
      let page_url' :=
        match page_url filter with Some s => s | None => EmptyString end in
      let arg_url' :=
        match arg_url filter with Some s => s | None => EmptyString end in
      let days_ago' := -1 in
      let days_ago' :=
        match days_ago filter with Some d => d | None => days_ago' end in
      call (GetFilteredActions extension_id' action_type api_call' page_url'
              arg_url' days_ago' Bind_OnLookupCompleted);;
      mret true
  end.

(** The iterator loop of [OnLookupCompleted]: one [push_back] per element. *)
Fixpoint convert_actions (it : list Action) (result_arr : list ExtensionActivity)
  : list ExtensionActivity :=
  match it with
  | [] => result_arr
  | action :: rest =>
      convert_actions rest (result_arr ++ [ConvertToExtensionActivity action])
  end.

(** [void ...GetExtensionActivitiesFunction::OnLookupCompleted (activities)]. *)
Definition OnLookupCompleted (activities : list Action) : M unit :=
  let result_arr := convert_actions activities [] in
  let result_set := {| activities := result_arr |} in
  let results_ := result_set in
  call (SendResponse true results_).

(** The body of the [for] loop of [deleteActivities], at index [i]:
    [value] is the variable declared before the loop, written by every
    call of [StringToInt64] and read only after a call that returned
    [true]. *)
Definition parse_activity_id (activity_ids : list string)
    (st : Z * list Z) (i : nat) : Z * list Z :=
  let '(value, action_ids) := st in
  match activity_ids !! i with
  | Some id =>
      let '(ok, value) := StringToInt64 id in
      if ok then (value, action_ids ++ [value]) else (value, action_ids)
  | None => (value, action_ids)
  end.

(** [for (size_t i = 0; i < params->activity_ids.size (); i++)]: the body
    changes neither [i] nor the size, so it runs at [0 .. size - 1]. *)
Definition parse_activity_ids (activity_ids : list string) : list Z :=
  snd (foldl (parse_activity_id activity_ids) (0, [])
         (seq 0 (length activity_ids))).

(** [bool ActivityLogPrivateDeleteActivitiesFunction::RunImpl ()]. *)
Definition DeleteActivities_RunImpl (params : option (list string)) : M bool :=
  match params with
  | None => mret false
  | Some activity_ids =>
      let action_ids := parse_activity_ids activity_ids in
      call (RemoveActions action_ids);;
      mret true
  end.

(** [bool ActivityLogPrivateDeleteDatabaseFunction::RunImpl ()]. *)
Definition DeleteDatabase_RunImpl : M bool :=
  call DeleteDatabase;;
  mret true.

(** The iterator loop of [deleteUrls]. *)
Fixpoint make_gurls (it : list string) (gurls : list GURL) : list GURL :=
  match it with
  | [] => gurls
  | url :: rest => make_gurls rest (gurls ++ [GURL_of url])
  end.

(** [bool ActivityLogPrivateDeleteUrlsFunction::RunImpl ()]. The member
    [urls] of the parameters is a [scoped_ptr], dereferenced without a
    test. *)
Definition DeleteUrls_RunImpl (params : option (option (list string))) : M bool :=
  match params with
  | None => mret false
  | Some None => fault
  | Some (Some urls) =>
      let gurls := make_gurls urls [] in
      call (RemoveURLs gurls);;
      mret true
  end.

(** ** The translation of a filter, as the spec words it *)

(** The table of activity types and the action kinds they select. *)
Definition spec_kind_table : list (ActivityType * ActionType) :=
  [ (ACTIVITY_TYPE_API_CALL, ACTION_API_CALL);
    (ACTIVITY_TYPE_API_EVENT, ACTION_API_EVENT);
    (ACTIVITY_TYPE_CONTENT_SCRIPT, ACTION_CONTENT_SCRIPT);
    (ACTIVITY_TYPE_DOM_ACCESS, ACTION_DOM_ACCESS);
    (ACTIVITY_TYPE_DOM_EVENT, ACTION_DOM_EVENT);
    (ACTIVITY_TYPE_WEB_REQUEST, ACTION_WEB_REQUEST);
    (ACTIVITY_TYPE_ANY, ACTION_ANY) ].

(** Spec: the kind is looked up in the table, unknown values map to [Any]. *)
Definition spec_action_kind (t : ActivityType) : ActionType :=
  match list_find (fun row => fst row = t) spec_kind_table with
  | Some (_, row) => snd row
  | None => ACTION_ANY
  end.

(** Spec: absent strings become the empty string, an absent [days_ago]
    becomes [-1], and the six arguments go to the store in one query. *)
Definition spec_query (f : Filter) : Call :=
  GetFilteredActions
    (default EmptyString (extension_id f))
    (spec_action_kind (activity_type f))
    (default EmptyString (api_call f))
    (default EmptyString (page_url f))
    (default EmptyString (arg_url f))
    (default (-1) (days_ago f))
    Bind_OnLookupCompleted.

(** A filter with its [days_ago] member replaced. *)
Definition with_days_ago (d : option Z) (f : Filter) : Filter :=
  {| activity_type := activity_type f;
     extension_id := extension_id f;
     api_call := api_call f;
     page_url := page_url f;
     arg_url := arg_url f;
     days_ago := d |}.

(** What one identifier string contributes to the forwarded list. *)
Definition parsed_id (id : string) : option Z :=
  if fst (StringToInt64 id) then Some (snd (StringToInt64 id)) else None.

(** Number of occurrences of [x] in [l]. *)
Definition occurrences `{EqDecision A} (x : A) (l : list A) : nat :=
  length (filter (fun y => y = x) l).

(** ** Reading the trace *)

Definition is_broadcast (c : Call) : bool :=
  match c with BroadcastEvent _ => true | _ => false end.

Definition is_query (c : Call) : bool :=
  match c with GetFilteredActions _ _ _ _ _ _ _ => true | _ => false end.

(** The calls of [w'] that were made after [w]. *)
Definition calls_since (w w' : World) : list Call :=
  drop (length (trace w)) (trace w').

(** The calls a computation makes when it is run in [w]. *)
Definition calls_of {A} (m : M A) (w : World) : list Call :=
  match m w with
  | Some (_, w') => calls_since w w'
  | None => []
  end.

(** The registrations of an observer with the two collaborators. *)
Definition router_registrations (o : Observer) (w : World) : nat :=
  match event_router w with
  | Some observers => length (filter (fun r => snd r = o) observers)
  | None => 0%nat
  end.

Definition log_registrations (o : Observer) (w : World) : nat :=
  length (filter (fun o' => o' = o) (activity_log w)).

(** ** Life cycle *)

(** What can happen to an [ActivityLogAPI] once it is constructed. *)
Inductive Op :=
  | OpShutdown
  | OpOnListenerAdded
  | OpOnListenerRemoved
  | OpOnExtensionActivity (activity : Action).

Definition run_op (api : ActivityLogAPI) (op : Op) : M unit :=
  match op with
  | OpShutdown => Shutdown api
  | OpOnListenerAdded => OnListenerAdded api
  | OpOnListenerRemoved => OnListenerRemoved api
  | OpOnExtensionActivity activity => OnExtensionActivity api activity
  end.

Definition is_shutdown (op : Op) : bool :=
  match op with OpShutdown => true | _ => false end.

Fixpoint run_ops (api : ActivityLogAPI) (ops : list Op) : M unit :=
  match ops with
  | [] => mret tt
  | op :: rest => run_op api op;; run_ops api rest
  end.

(** The component of a profile: constructed, then driven by [ops]. *)
Definition lifecycle (self : Observer) (context : BrowserContext) (ops : list Op)
  : M ActivityLogAPI :=
  api ← ActivityLogAPI_new self context;
  run_ops api ops;;
  mret api.

(** No [Shutdown] among the operations: the component is still active. *)
Definition no_shutdown (ops : list Op) : Prop :=
  Forall (fun op => is_shutdown op = false) ops.

(** The event the spec expects for an action: the fixed name, the
    projection of the action as only argument, the owning profile. *)
Definition spec_event (context : BrowserContext) (activity : Action) : Event :=
  {| event_name := "onExtensionActivity";
     event_args := [ToValue (ConvertToExtensionActivity activity)];
     restrict_to_browser_context := Some context |}.

(** The subscription-state invariant of the spec, for a component that was
    constructed in [w0] and is now in [w]. *)
Definition subscription_invariant (w0 : World) (api : ActivityLogAPI) (w : World)
  : Prop :=
  (initialized_ api = true ->
     router_registrations (this api) w = 1%nat
     /\ log_registrations (this api) w = 1%nat)
  /\ (initialized_ api = false ->
       filter (fun c => is_broadcast c = true) (calls_since w0 w) = []
       /\ Shutdown api w = Some (tt, w)).

(** What the spec says of a component in [w] after [Shutdown]: whatever
    runs on it later broadcasts nothing and queries nothing, and the
    observer callback changes nothing. *)
Definition silent_after_shutdown (api : ActivityLogAPI) (w : World) : Prop :=
  forall (ops : list Op) (w' : World),
    run_ops api ops w = Some (tt, w') ->
    filter (fun c => is_broadcast c = true) (calls_since w w') = []
    /\ filter (fun c => is_query c = true) (calls_since w w') = []
    /\ forall activity, OnExtensionActivity api activity w' = Some (tt, w').

End Api.

(** ** A concrete host *)

(** Actions are numbered, an activity and its value are tagged copies, ids
    are read as decimal numbers, and a URL is well formed when it starts
    with a scheme and a colon. *)
Fixpoint has_scheme (s : string) : bool :=
  match s with
  | EmptyString => false
  | String c rest =>
      if bool_decide (c = ":"%char) then true
      else if bool_decide (97 <= Z.of_N (N_of_ascii c) <= 122) then has_scheme rest
      else false
  end.

Definition sample_host : Collaborators := {|
  Action := nat;
  ExtensionActivity := nat * unit;
  Value := list (nat * unit);
  ConvertToExtensionActivity := fun a => (a, tt);
  ToValue := fun e => [e];
  StringToInt64 := StringToInt64_decimal;
  Canonicalize := fun s =>
    match s with
    | String ":" _ => None
    | _ => if has_scheme s then Some s else None
    end
|}.

Definition test_profile : @World sample_host :=
  {| event_router := None; activity_log := []; trace := [] |}.

Definition browser_profile : @World sample_host :=
  {| event_router := Some []; activity_log := []; trace := [] |}.

(** The component at address 1 of the profile 7, as constructed in
    [browser_profile]; the profile after the constructor and after a
    [Shutdown]. *)
Definition sample_api : @ActivityLogAPI :=
  {| this := 1%nat; browser_context_ := 7%nat;
     activity_log_ := Some 7%nat; initialized_ := true |}.

Definition constructed_world : @World sample_host :=
  {| event_router := Some [("onExtensionActivity"%string, 1%nat)];
     activity_log := [1%nat];
     trace := [RegisterObserver 1%nat "onExtensionActivity"; AddObserver 1%nat] |}.

Definition shut_world : @World sample_host :=
  {| event_router := Some [];
     activity_log := [];
     trace := [RegisterObserver 1%nat "onExtensionActivity"; AddObserver 1%nat;
               UnregisterObserver 1%nat; RemoveObserver 1%nat] |}.

Definition sample_action : @Action sample_host := 3%nat.

(** * More of the API: requests, traces and filters *)

Section ApiMore.

Context `{host : Collaborators}.

#[local] Existing Instance M_ret.
#[local] Existing Instance M_bind.

(** The actions a sequence of operations hands to the observer callback,
    in order. *)
Definition delivered_actions (ops : list Op) : list Action :=
  omap (fun op => match op with
                  | OpOnExtensionActivity activity => Some activity
                  | _ => None
                  end) ops.

Definition is_callback (op : Op) : bool :=
  match op with OpOnExtensionActivity _ => true | _ => false end.

(** The collaborator calls in the body of each member function, for an
    initialized component. *)
Definition op_calls (api : ActivityLogAPI) (op : Op) : list Call :=
  match op with
  | OpShutdown => [UnregisterObserver (this api); RemoveObserver (this api)]
  | OpOnListenerAdded => []
  | OpOnListenerRemoved => []
  | OpOnExtensionActivity activity =>
      [BroadcastEvent (spec_event (browser_context_ api) activity)]
  end.

(** The four calls on the activity log that the extension functions make. *)
Definition is_store_request (c : Call) : bool :=
  match c with
  | GetFilteredActions _ _ _ _ _ _ _ => true
  | RemoveActions _ => true
  | RemoveURLs _ => true
  | DeleteDatabase => true
  | _ => false
  end.

(** One run of one of the four extension functions, with the outcome of
    its [Params::Create]. *)
Inductive Request :=
  | Run_getExtensionActivities (params : option Filter)
  | Run_deleteActivities (params : option (list string))
  | Run_deleteDatabase
  | Run_deleteUrls (params : option (option (list string))).

Definition RunImpl (r : Request) : M bool :=
  match r with
  | Run_getExtensionActivities params => GetExtensionActivities_RunImpl params
  | Run_deleteActivities params => DeleteActivities_RunImpl params
  | Run_deleteDatabase => DeleteDatabase_RunImpl
  | Run_deleteUrls params => DeleteUrls_RunImpl params
  end.

(** A whole [getExtensionActivities] exchange: [RunImpl], then the store
    runs the bound callback with the actions it found. *)
Definition getExtensionActivities_exchange (params : option Filter)
    (found : list Action) : M bool :=
  ok ← GetExtensionActivities_RunImpl params;
  if ok : bool then (OnLookupCompleted found;; mret true) else mret false.

(** A filter with every member spelled out: the values [RunImpl] puts in
    place of absent members, and [ANY] for a type outside the enum. *)
Definition explicit_filter (f : Filter) : Filter :=
  {| activity_type :=
       match activity_type f with
       | ACTIVITY_TYPE_other _ => ACTIVITY_TYPE_ANY
       | t => t
       end;
     extension_id := Some (default EmptyString (extension_id f));
     api_call := Some (default EmptyString (api_call f));
     page_url := Some (default EmptyString (page_url f));
     arg_url := Some (default EmptyString (arg_url f));
     days_ago := Some (default (-1) (days_ago f)) |}.

(** The enumerators of [Filter::ActivityType] that the switch names. *)
Definition is_enumerator (t : ActivityType) : bool :=
  match t with ACTIVITY_TYPE_other _ => false | _ => true end.

(** What can happen in a profile around a component: an operation on the
    component, a run of one of the extension functions, or the store
    running the callback of an earlier query. *)
Inductive Step :=
  | Step_op (op : Op)
  | Step_request (r : Request)
  | Step_lookup_completed (found : list Action).

Definition run_step (api : ActivityLogAPI) (s : Step) : M unit :=
  match s with
  | Step_op op => run_op api op
  | Step_request r => RunImpl r;; mret tt
  | Step_lookup_completed found => OnLookupCompleted found
  end.

Fixpoint run_steps (api : ActivityLogAPI) (steps : list Step) : M unit :=
  match steps with
  | [] => mret tt
  | s :: rest => run_step api s;; run_steps api rest
  end.

(** The store queries of the [getExtensionActivities] runs among the
    steps whose arguments validate. *)
Definition queries_of_steps (steps : list Step) : list Call :=
  omap (fun s => match s with
                 | Step_request (Run_getExtensionActivities (Some f)) =>
                     Some (spec_query f)
                 | _ => None
                 end) steps.

(** C10 as the claim words it: a string that parses and occurs more than
    once in the input has its number in the forwarded list the same number
    of times. *)
Definition forwards_same_count (activity_ids : list string) : Prop :=
  forall (id : string) (v : Z),
    StringToInt64 id = (true, v) ->
    (2 <= occurrences id activity_ids)%nat ->
    occurrences v (parse_activity_ids activity_ids)
    = occurrences id activity_ids.

End ApiMore.
(** * The about:nacl page

    A shallow embedding of [chrome/browser/ui/webui/nacl_ui.cc]: the
    helpers that collect the key-value pairs of the page, and the message
    handler [NaClDomHandler] that waits for the page request, the plugin
    list and the validation of the PNaCl path before it answers. *)

Module NaCl.

(** The resource ids, command-line switches and Windows versions the file
    names; their values are declared elsewhere. *)
Inductive MessageId := IDS_PRODUCT_NAME | IDS_ABOUT_VERSION_OS.

Inductive Switch := kDisablePnacl | kEnableNaCl.

Inductive WinVersion :=
  | VERSION_XP
  | VERSION_SERVER_2003
  | VERSION_VISTA
  | VERSION_WIN7
  | VERSION_WIN8
  | VERSION_other.

(** [base::win::OSInfo] as far as the file reads it. *)
Record OSInfo := {
  os_version : WinVersion;
  service_pack_major : Z;
  service_pack_minor : Z;
  x64_architecture : bool
}.

(** The services the page asks: the plugin service and the plugin
    preferences of the profile, the command line, the path service and the
    file system, the localized strings, the version information, and
    [base::win::OSInfo] in a build with [OS_WIN] ([None] otherwise). *)
Class Services := {
  FilePath : Type;
  FilePath_empty : FilePath -> bool;
  LossyDisplayName : FilePath -> string;
  DirName : FilePath -> FilePath;
  BaseName : FilePath -> FilePath;
  WebPluginInfo : Type;
  version : WebPluginInfo -> string;
  path : WebPluginInfo -> FilePath;
  GetPluginInfoArray : list WebPluginInfo;
  IsPluginEnabled : WebPluginInfo -> bool;
  HasSwitch : Switch -> bool;
  PathService_Get : bool * FilePath;
  PathExists : FilePath -> bool;
  GetStringUTF16 : MessageId -> string;
  Version : string;
  GetVersionStringModifier : string;
  OSType : string;
  windows : option OSInfo;
  IntToString : Z -> string
}.

(** A [DictionaryValue] with the two keys [key] and [value], and the
    [ListValue] of such pairs. [ASCIIToUTF16] is left out: both string
    types are [string]. *)
Record Pair := { key : string; value : string }.

Definition ListValue := list Pair.

(** What the handler asks of the browser. *)
Inductive Effect :=
  | GetPlugins
  | PostValidatePnaclPath
  | CallJavascriptFunction (function_name : string)
      (arg : list (string * ListValue)).

(** The members of [NaClDomHandler]. *)
Record NaClDomHandler := {
  page_has_requested_data_ : bool;
  has_plugin_info_ : bool;
  pnacl_path_validated_ : bool;
  pnacl_path_exists_ : bool
}.

(** What can reach the handler: the page message [requestNaClInfo], the
    plugin list, and the reply of a posted validation. *)
Inductive Stimulus :=
  | RequestNaClInfo
  | GotPlugins
  | ValidatedPnaclPath (is_valid : bool).

Section Page.

Context `{services : Services}.

(** [void AddPair (ListValue* list, key, value)]. *)
Definition AddPair (list : ListValue) (k v : string) : ListValue :=
  let results := {| key := k; value := v |} in
  list ++ [results].

(** [void AddLineBreak (ListValue* list)]. *)
Definition AddLineBreak (list : ListValue) : ListValue :=
  AddPair list EmptyString EmptyString.

(** [bool NaClDomHandler::isPluginEnabled (size_t plugin_index)]; [None]
    is a read past the end of [info_array]. *)
Definition isPluginEnabled (plugin_index : nat) : option bool :=
  let info_array := GetPluginInfoArray in
  if bool_decide (info_array = []) then Some false
  else match info_array !! plugin_index with
       | Some info => Some (IsPluginEnabled info)
       | None => None
       end.

(** The part of [AddOperatingSystemInfo] under [#if defined (OS_WIN)]. *)
Definition windows_label (os_label : string) (os : OSInfo) : string :=
  let os_label :=
    match os_version os with
    | VERSION_XP => os_label +:+ " XP"
    | VERSION_SERVER_2003 => os_label +:+ " Server 2003 or XP Pro 64 bit"
    | VERSION_VISTA => os_label +:+ " Vista or Server 2008"
    | VERSION_WIN7 => os_label +:+ " 7 or Server 2008 R2"
    | VERSION_WIN8 => os_label +:+ " 8 or Server 2012"
    | VERSION_other => os_label +:+ " UNKNOWN"
    end in
  let os_label := os_label +:+ (" SP" +:+ IntToString (service_pack_major os)) in
  let os_label :=
    if bool_decide (service_pack_minor os > 0)
    then os_label +:+ ("." +:+ IntToString (service_pack_minor os))
    else os_label in
  if x64_architecture os then os_label +:+ " 64 bit" else os_label.

(** [void NaClDomHandler::AddOperatingSystemInfo (ListValue* list)]. *)
Definition AddOperatingSystemInfo (list : ListValue) : ListValue :=
  let list :=
    AddPair list (GetStringUTF16 IDS_PRODUCT_NAME)
      (((Version +:+ " (") +:+ GetVersionStringModifier) +:+ ")") in
  let os_label := OSType in
  let os_label :=
    match windows with
    | Some os => windows_label os_label os
    | None => os_label
    end in
  let list := AddPair list (GetStringUTF16 IDS_ABOUT_VERSION_OS) os_label in
  AddLineBreak list.

(** The body of the loop of [AddPluginList], at index [i]. *)
Definition add_unused_plugin (info_array : list WebPluginInfo)
    (list : ListValue) (i : nat) : option ListValue :=
  info ← info_array !! i;
  let nacl_version := (version info +:+ " ") +:+ LossyDisplayName (path info) in
  let nacl_version := nacl_version +:+ " (not used)" in
  enabled ← isPluginEnabled i;
  let nacl_version :=
    if negb enabled then nacl_version +:+ " (Disabled in profile prefs)"
    else nacl_version in
  Some (AddPair list "NaCl plugin" nacl_version).

(** [void NaClDomHandler::AddPluginList (ListValue* list)]. The loop runs
    at the indices [1 .. size - 1]. *)
Definition AddPluginList (list : ListValue) : option ListValue :=
  let info_array := GetPluginInfoArray in
  let nacl_key := "NaCl plugin" in
  list ←
    (if bool_decide (info_array = []) then
       Some (AddPair list nacl_key "Disabled")
     else
       info ← info_array !! 0%nat;
       let nacl_version :=
         (version info +:+ " ") +:+ LossyDisplayName (path info) in
       enabled ← isPluginEnabled 0;
       let nacl_version :=
         if negb enabled then nacl_version +:+ " (Disabled in profile prefs)"
         else nacl_version in
       let list := AddPair list nacl_key nacl_version in
       foldl (fun acc i => acc ≫= fun list => add_unused_plugin info_array list i)
         (Some list) (seq 1 (length info_array - 1)));
  Some (AddLineBreak list).

(** [void NaClDomHandler::AddPnaclInfo (ListValue* list)], which reads the
    member [pnacl_path_exists_]. *)
Definition AddPnaclInfo (pnacl_path_exists : bool) (list : ListValue)
  : option ListValue :=
  let pnacl_enabled_string := "Enabled" in
  enabled ← isPluginEnabled 0;
  let pnacl_enabled_string :=
    if negb enabled then "Disabled in profile prefs"
    else if HasSwitch kDisablePnacl then "Disabled by flag '--disable-pnacl'"
    else pnacl_enabled_string in
  let list :=
    AddPair list "Portable Native Client (PNaCl)" pnacl_enabled_string in
  let '(got_path, pnacl_path) := PathService_Get in
  let list :=
    if negb got_path || FilePath_empty pnacl_path || negb pnacl_path_exists
    then AddPair list "PNaCl translator" "Not installed"
    else
      let list :=
        AddPair list "PNaCl translator path" (LossyDisplayName pnacl_path) in
      AddPair list "PNaCl translator version"
        (LossyDisplayName (BaseName (DirName (DirName pnacl_path)))) in
  Some (AddLineBreak list).

(** [void NaClDomHandler::AddNaClInfo (ListValue* list)]. The switch is
    read only when the plugin is enabled. *)
Definition AddNaClInfo (list : ListValue) : option ListValue :=
  let nacl_enabled_string := "Disabled" in
  enabled ← isPluginEnabled 0;
  let nacl_enabled_string :=
    if enabled && HasSwitch kEnableNaCl then "Enabled by flag '--enable-nacl'"
    else nacl_enabled_string in
  let list :=
    AddPair list "Native Client (non-portable, outside web store)"
      nacl_enabled_string in
  Some (AddLineBreak list).

(** [void NaClDomHandler::PopulatePageInformation (DictionaryValue* naclInfo)]:
    the dictionary gets the one key [naclInfo]. A failed
    [DCHECK (pnacl_path_validated_)] is [None]. *)
Definition PopulatePageInformation (handler : NaClDomHandler)
  : option (list (string * ListValue)) :=
  if negb (pnacl_path_validated_ handler) then None
  else
    let list : ListValue := [] in
    let list := AddOperatingSystemInfo list in
    list ← AddPluginList list;
    list ← AddPnaclInfo (pnacl_path_exists_ handler) list;
    list ← AddNaClInfo list;
    Some [("naclInfo"%string, list)].

(** [void ValidatePnaclPath (bool* is_valid)]: the value stored. *)
Definition ValidatePnaclPath : bool :=
  let '(got_path, pnacl_path) := PathService_Get in
  got_path && negb (FilePath_empty pnacl_path) && PathExists pnacl_path.

(** [void NaClDomHandler::MaybeRespondToPage ()]: the handler is not
    changed; the result is what it asks of the browser. *)
Definition MaybeRespondToPage (handler : NaClDomHandler) : option (list Effect) :=
  if negb (page_has_requested_data_ handler) || negb (has_plugin_info_ handler)
  then Some []
  else if negb (pnacl_path_validated_ handler) then Some [PostValidatePnaclPath]
  else
    naclInfo ← PopulatePageInformation handler;
    Some [CallJavascriptFunction "nacl.returnNaClInfo" naclInfo].

(** [NaClDomHandler::NaClDomHandler ()]. *)
Definition NaClDomHandler_new : NaClDomHandler * list Effect :=
  ({| page_has_requested_data_ := false;
      has_plugin_info_ := false;
      pnacl_path_validated_ := false;
      pnacl_path_exists_ := false |},
   [GetPlugins]).

(** [void NaClDomHandler::HandleRequestNaClInfo (const ListValue* args)]. *)
Definition HandleRequestNaClInfo (handler : NaClDomHandler)
  : option (NaClDomHandler * list Effect) :=
  let handler :=
    {| page_has_requested_data_ := true;
       has_plugin_info_ := has_plugin_info_ handler;
       pnacl_path_validated_ := false;
       pnacl_path_exists_ := pnacl_path_exists_ handler |} in
  effects ← MaybeRespondToPage handler;
  Some (handler, effects).

(** [void NaClDomHandler::OnGotPlugins (plugins)]. *)
Definition OnGotPlugins (handler : NaClDomHandler)
  : option (NaClDomHandler * list Effect) :=
  let handler :=
    {| page_has_requested_data_ := page_has_requested_data_ handler;
       has_plugin_info_ := true;
       pnacl_path_validated_ := pnacl_path_validated_ handler;
       pnacl_path_exists_ := pnacl_path_exists_ handler |} in
  effects ← MaybeRespondToPage handler;
  Some (handler, effects).

(** [void NaClDomHandler::DidValidatePnaclPath (bool* is_valid)]. *)
Definition DidValidatePnaclPath (handler : NaClDomHandler) (is_valid : bool)
  : option (NaClDomHandler * list Effect) :=
  let handler :=
    {| page_has_requested_data_ := page_has_requested_data_ handler;
       has_plugin_info_ := has_plugin_info_ handler;
       pnacl_path_validated_ := true;
       pnacl_path_exists_ := is_valid |} in
  effects ← MaybeRespondToPage handler;
  Some (handler, effects).

(** ** The handler in the browser *)

Definition deliver (handler : NaClDomHandler) (s : Stimulus)
  : option (NaClDomHandler * list Effect) :=
  match s with
  | RequestNaClInfo => HandleRequestNaClInfo handler
  | GotPlugins => OnGotPlugins handler
  | ValidatedPnaclPath is_valid => DidValidatePnaclPath handler is_valid
  end.

(** The handler after a sequence of stimuli, with everything it asked of
    the browser on the way, oldest first. *)
Fixpoint deliver_all (handler : NaClDomHandler) (stimuli : list Stimulus)
  : option (NaClDomHandler * list Effect) :=
  match stimuli with
  | [] => Some (handler, [])
  | s :: rest =>
      '(handler, effects) ← deliver handler s;
      '(handler, more) ← deliver_all handler rest;
      Some (handler, effects ++ more)
  end.

Definition is_response (e : Effect) : bool :=
  match e with CallJavascriptFunction _ _ => true | _ => false end.

Definition is_post (e : Effect) : bool :=
  match e with PostValidatePnaclPath => true | _ => false end.

Definition is_reply (s : Stimulus) : bool :=
  match s with ValidatedPnaclPath _ => true | _ => false end.

(** How the browser drives the handler: the plugin list arrives once
    (the constructor asks for it once), and the blocking pool replies only
    to validations that were posted, one reply for each. [pending] counts
    the posts without a reply so far. *)
Fixpoint browser_behaves (handler : NaClDomHandler) (pending : nat)
    (stimuli : list Stimulus) : Prop :=
  match stimuli with
  | [] => True
  | s :: rest =>
      match s with
      | RequestNaClInfo => True
      | GotPlugins => has_plugin_info_ handler = false
      | ValidatedPnaclPath _ => (0 < pending)%nat
      end
      /\ match deliver handler s with
         | Some (handler', effects) =>
             browser_behaves handler'
               (pending - (if is_reply s then 1 else 0)
                + length (filter (fun e => is_post e = true) effects))
               rest
         | None => True
         end
  end.

(** The page information built when the validation said [is_valid]. *)
Definition page_information (is_valid : bool)
  : option (list (string * ListValue)) :=
  PopulatePageInformation
    {| page_has_requested_data_ := true;
       has_plugin_info_ := true;
       pnacl_path_validated_ := true;
       pnacl_path_exists_ := is_valid |}.

(** The answer to the page that a reply of the blocking pool leads to. *)
Definition reply_response (s : Stimulus) : option Effect :=
  match s with
  | ValidatedPnaclPath is_valid =>
      CallJavascriptFunction "nacl.returnNaClInfo" <$> page_information is_valid
  | _ => None
  end.

(** The empty pair that [AddLineBreak] appends. *)
Definition line_break : Pair := {| key := EmptyString; value := EmptyString |}.

(** The pairs [AddPnaclInfo] adds for the translator. *)
Definition translator_pairs (installed : bool) : ListValue :=
  if installed then
    [ {| key := "PNaCl translator path";
         value := LossyDisplayName (snd PathService_Get) |};
      {| key := "PNaCl translator version";
         value := LossyDisplayName
                    (BaseName (DirName (DirName (snd PathService_Get)))) |} ]
  else [ {| key := "PNaCl translator"; value := "Not installed" |} ].

(** The three things [AddPnaclInfo] can say about PNaCl. *)
Definition pnacl_status (plugin_enabled disabled_by_flag : bool) : string :=
  if negb plugin_enabled then "Disabled in profile prefs"
  else if disabled_by_flag then "Disabled by flag '--disable-pnacl'"
  else "Enabled".

(** The first plugin of the array is there and enabled in the profile. *)
Definition first_plugin_enabled : bool :=
  match GetPluginInfoArray with
  | info :: _ => IsPluginEnabled info
  | [] => false
  end.

(** The entry of the plugin at index [i] in the list of [AddPluginList]. *)
Definition plugin_entry (i : nat) (info : WebPluginInfo) : Pair :=
  {| key := "NaCl plugin";
     value :=
       let text := (version info +:+ " ") +:+ LossyDisplayName (path info) in
       let text := if bool_decide (i = 0%nat) then text
                   else text +:+ " (not used)" in
       if IsPluginEnabled info then text
       else text +:+ " (Disabled in profile prefs)" |}.

End Page.

(** ** A concrete set of services *)

(** Paths are lists of components; two NaCl plugins are installed, the
    second disabled in the profile; PNaCl sits in a versioned directory
    that exists; the build is not a Windows build. *)
Definition sample_services : Services := {|
  FilePath := list string;
  FilePath_empty := fun p => bool_decide (p = []);
  LossyDisplayName := fun p => String.concat "/" p;
  DirName := fun p => take (length p - 1) p;
  BaseName := fun p => drop (length p - 1) p;
  WebPluginInfo := string * list string;
  version := fst;
  path := snd;
  GetPluginInfoArray :=
    [("1.0"%string, ["lib"; "nacl.so"]%string);
     ("0.9"%string, ["old"; "nacl.so"]%string)];
  IsPluginEnabled := fun info => bool_decide (fst info = "1.0"%string);
  HasSwitch := fun s => match s with kEnableNaCl => true | kDisablePnacl => false end;
  PathService_Get := (true, ["pnacl"; "0.1.2"; "_platform_specific"; "x86_64"]%string);
  PathExists := fun _ => true;
  GetStringUTF16 := fun id =>
    match id with
    | IDS_PRODUCT_NAME => "Chromium"%string
    | IDS_ABOUT_VERSION_OS => "OS"%string
    end;
  Version := "33.0";
  GetVersionStringModifier := "dev";
  OSType := "Linux";
  windows := None;
  IntToString := fun _ => EmptyString
|}.

(** The same services in a browser without any NaCl plugin. *)
Definition no_plugin_services : Services := {|
  FilePath := @FilePath sample_services;
  FilePath_empty := @FilePath_empty sample_services;
  LossyDisplayName := @LossyDisplayName sample_services;
  DirName := @DirName sample_services;
  BaseName := @BaseName sample_services;
  WebPluginInfo := @WebPluginInfo sample_services;
  version := @version sample_services;
  path := @path sample_services;
  GetPluginInfoArray := [];
  IsPluginEnabled := @IsPluginEnabled sample_services;
  HasSwitch := @HasSwitch sample_services;
  PathService_Get := @PathService_Get sample_services;
  PathExists := @PathExists sample_services;
  GetStringUTF16 := @GetStringUTF16 sample_services;
  Version := @Version sample_services;
  GetVersionStringModifier := @GetVersionStringModifier sample_services;
  OSType := @OSType sample_services;
  windows := @windows sample_services;
  IntToString := @IntToString sample_services
|}.

(** A handler that has everything, with an installed translator. *)
Definition validated_handler : NaClDomHandler :=
  {| page_has_requested_data_ := true; has_plugin_info_ := true;
     pnacl_path_validated_ := true; pnacl_path_exists_ := true |}.

(** The page asks before the plugin list arrives, is answered after the
    first validation, asks again and is answered again. *)
Definition sample_stimuli : list Stimulus :=
  [RequestNaClInfo; GotPlugins; ValidatedPnaclPath true;
   RequestNaClInfo; ValidatedPnaclPath false].

End NaCl.
(** * The input method initializer

    A shallow embedding of [ui/base/ime/input_method_initializer.cc]. The
    preprocessor conditions are the fields of a build; the global
    [g_linux_input_method_context_factory], the instance held by
    [LinuxInputMethodContextFactory] and the fake factories that are alive
    are the state; the calls on the platform bridges are recorded. *)

Module IME.

(** The macros the file tests. *)
Record Build := {
  OS_CHROMEOS : bool;
  USE_AURA : bool;
  OS_LINUX : bool;
  OS_WIN : bool;
  TOOLKIT_VIEWS : bool
}.

Inductive BridgeCall :=
  | IBusBridge_Initialize
  | IBusBridge_Shutdown
  | InputMethodAuraLinux_Initialize
  | TSFBridge_Initialize
  | TSFBridge_Shutdown
  | InputMethodFactory_ClearInstance
  | DestroySharedInputMethod
  | CoInitialize
  | CoUninitialize.

(** Objects are known by their address. [fakes] are the
    [FakeInputMethodContextFactory] objects created and not yet deleted. *)
Record State := {
  g_linux_input_method_context_factory : option nat;
  instance : option nat;
  fakes : list nat;
  calls : list BridgeCall
}.

Definition record (c : BridgeCall) (st : State) : State :=
  {| g_linux_input_method_context_factory :=
       g_linux_input_method_context_factory st;
     instance := instance st;
     fakes := fakes st;
     calls := calls st ++ [c] |}.

(** [new] gives an address that no object of the state has. *)
Definition new_address (st : State) : nat :=
  S (max_list (option_list (g_linux_input_method_context_factory st)
               ++ option_list (instance st) ++ fakes st)).

(** [CHECK (!factory || factory == g_linux_input_method_context_factory)]. *)
Definition check_factory (st : State) : bool :=
  match instance st with
  | None => true
  | Some factory =>
      bool_decide (Some factory = g_linux_input_method_context_factory st)
  end.

Section Initializer.

(** [base::win::IsTSFAwareRequired ()]. *)
Context (IsTSFAwareRequired : bool).

(** [void InitializeInputMethod ()]. *)
Definition InitializeInputMethod (b : Build) (st : State) : option State :=
  if OS_CHROMEOS b then Some (record IBusBridge_Initialize st)
  else if USE_AURA b && OS_LINUX b then
    Some (record InputMethodAuraLinux_Initialize st)
  else if OS_WIN b then
    if IsTSFAwareRequired then Some (record TSFBridge_Initialize st)
    else Some st
  else Some st.

(** [void ShutdownInputMethod ()]. *)
Definition ShutdownInputMethod (b : Build) (st : State) : option State :=
  let st :=
    if TOOLKIT_VIEWS b || USE_AURA b
    then record InputMethodFactory_ClearInstance st else st in
  if OS_CHROMEOS b then Some (record IBusBridge_Shutdown st)
  else if OS_WIN b then
    let st := record DestroySharedInputMethod st in
    if IsTSFAwareRequired then Some (record TSFBridge_Shutdown st)
    else Some st
  else Some st.

(** [void InitializeInputMethodForTesting ()]; [None] is a failed
    [CHECK]. *)
Definition InitializeInputMethodForTesting (b : Build) (st : State)
  : option State :=
  if OS_CHROMEOS b then Some (record IBusBridge_Initialize st)
  else if USE_AURA b && OS_LINUX b then
    let st :=
      match g_linux_input_method_context_factory st with
      | None =>
          let fake := new_address st in
          {| g_linux_input_method_context_factory := Some fake;
             instance := instance st;
             fakes := fake :: fakes st;
             calls := calls st |}
      | Some _ => st
      end in
    if negb (check_factory st) then None
    else
      Some {| g_linux_input_method_context_factory :=
                g_linux_input_method_context_factory st;
              instance := g_linux_input_method_context_factory st;
              fakes := fakes st;
              calls := calls st |}
  else if OS_WIN b then
    if IsTSFAwareRequired then
      Some (record TSFBridge_Initialize (record CoInitialize st))
    else Some st
  else Some st.

(** [void ShutdownInputMethodForTesting ()]. *)
Definition ShutdownInputMethodForTesting (b : Build) (st : State)
  : option State :=
  let st :=
    if TOOLKIT_VIEWS b || USE_AURA b
    then record InputMethodFactory_ClearInstance st else st in
  if OS_CHROMEOS b then Some (record IBusBridge_Shutdown st)
  else if USE_AURA b && OS_LINUX b then
    if negb (check_factory st) then None
    else
      Some {| g_linux_input_method_context_factory := None;
              instance := None;
              fakes :=
                match g_linux_input_method_context_factory st with
                | Some fake => filter (fun a => a <> fake) (fakes st)
                | None => fakes st
                end;
              calls := calls st |}
  else if OS_WIN b then
    let st := record DestroySharedInputMethod st in
    if IsTSFAwareRequired then
      Some (record CoUninitialize (record TSFBridge_Shutdown st))
    else Some st
  else Some st.

(** The calls a function adds to those of [st]. *)
Definition added_calls (f : State -> option State) (st : State)
  : list BridgeCall :=
  match f st with
  | Some st' => drop (length (calls st)) (calls st')
  | None => []
  end.

End Initializer.

(** The build of the file for Linux with Aura, not Chrome OS. *)
Definition aura_linux (b : Build) : Prop :=
  OS_CHROMEOS b = false /\ USE_AURA b = true /\ OS_LINUX b = true.

Definition sample_aura_linux : Build :=
  {| OS_CHROMEOS := false; USE_AURA := true; OS_LINUX := true;
     OS_WIN := false; TOOLKIT_VIEWS := true |}.

Definition empty_state : State :=
  {| g_linux_input_method_context_factory := None; instance := None;
     fakes := []; calls := [] |}.

(** A foreign factory, at address 5, is installed. *)
Definition foreign_state : State :=
  {| g_linux_input_method_context_factory := None; instance := Some 5%nat;
     fakes := []; calls := [] |}.

(** The state after [InitializeInputMethodForTesting] in [empty_state]. *)
Definition testing_state : State :=
  {| g_linux_input_method_context_factory := Some 1%nat;
     instance := Some 1%nat; fakes := [1%nat]; calls := [] |}.

Definition sample_windows : Build :=
  {| OS_CHROMEOS := false; USE_AURA := true; OS_LINUX := false;
     OS_WIN := true; TOOLKIT_VIEWS := true |}.

End IME.

(** * Properties *)

Section Properties.

Context `{host : Collaborators}.

Implicit Types (w : World) (api : ActivityLogAPI) (c : Call).

Ltac unfold_M :=
  unfold mbind, M_bind, mret, M_ret, call, fault in *.

(** ** The trace *)

Lemma calls_since_refl w : calls_since w w = [].
Proof. unfold calls_since. apply drop_all. Qed.

Lemma calls_since_record_call c w : calls_since w (record_call c w) = [c].
Proof. unfold calls_since, record_call. simpl. apply drop_app_length. Qed.

Lemma event_router_record_call c w :
  event_router (record_call c w) = event_router w.
Proof. reflexivity. Qed.

Lemma router_registrations_record_call o c w :
  router_registrations o (record_call c w) = router_registrations o w.
Proof. reflexivity. Qed.

Lemma log_registrations_record_call o c w :
  log_registrations o (record_call c w) = log_registrations o w.
Proof. reflexivity. Qed.

(** ** Counting with [filter] *)

Lemma length_filter_none {A} (P : A -> Prop) `{forall x, Decision (P x)}
    (l : list A) :
  Forall (fun x => ~ P x) l -> length (filter P l) = 0%nat.
Proof.
  induction 1 as [|x l Hx _ IH]; [reflexivity|].
  rewrite filter_cons, decide_False by exact Hx. exact IH.
Qed.

Lemma length_filter_removed {A} (P : A -> Prop) `{forall x, Decision (P x)}
    (l : list A) :
  length (filter P (filter (fun x => ~ P x) l)) = 0%nat.
Proof.
  apply length_filter_none, Forall_forall. intros x Hx.
  by apply list_elem_of_In, list_elem_of_filter in Hx as [? _].
Qed.

(** ** The loops *)

Lemma convert_actions_app (it : list Action) (result_arr : list ExtensionActivity) :
  convert_actions it result_arr
  = result_arr ++ (ConvertToExtensionActivity <$> it).
Proof.
  revert result_arr. induction it as [|a it IH]; intros acc; simpl.
  - by rewrite app_nil_r.
  - rewrite IH, <- app_assoc. reflexivity.
Qed.

Lemma make_gurls_app (it : list string) (gurls : list GURL) :
  make_gurls it gurls = gurls ++ (GURL_of <$> it).
Proof.
  revert gurls. induction it as [|u it IH]; intros acc; simpl.
  - by rewrite app_nil_r.
  - rewrite IH, <- app_assoc. reflexivity.
Qed.

(** Running the loop body over the indices of a suffix of the vector is
    the same as walking the suffix. *)
Lemma parse_activity_id_suffix (done rest : list string) (value : Z)
    (action_ids : list Z) :
  snd (foldl (parse_activity_id (done ++ rest)) (value, action_ids)
         (seq (length done) (length rest)))
  = action_ids ++ omap parsed_id rest.
Proof.
  revert done value action_ids.
  induction rest as [|id rest IH]; intros done value action_ids; simpl.
  - by rewrite app_nil_r.
  - rewrite lookup_app_r, Nat.sub_diag by lia. simpl.
    unfold parsed_id.
    destruct (StringToInt64 id) as [ok v] eqn:Hparse. simpl.
    replace (done ++ id :: rest) with ((done ++ [id]) ++ rest)
      by (rewrite <- app_assoc; reflexivity).
    replace (S (length done)) with (length (done ++ [id]))
      by (rewrite length_app; simpl; lia).
    destruct ok; rewrite IH.
    + rewrite <- app_assoc. reflexivity.
    + reflexivity.
Qed.

Lemma parse_activity_ids_omap (activity_ids : list string) :
  parse_activity_ids activity_ids = omap parsed_id activity_ids.
Proof.
  unfold parse_activity_ids.
  apply (parse_activity_id_suffix [] activity_ids 0 []).
Qed.

Lemma occurrences_omap_parsed (ids : list string) (v : Z) :
  occurrences v (omap parsed_id ids)
  = length (filter (fun id => parsed_id id = Some v) ids).
Proof.
  unfold occurrences. induction ids as [|id ids IH]; [reflexivity|].
  rewrite filter_cons. cbn [omap list_omap].
  destruct (parsed_id id) as [v'|] eqn:Hid.
  - rewrite filter_cons. destruct (decide (v' = v)) as [->|Hne].
    + rewrite decide_True by reflexivity. simpl. by rewrite IH.
    + rewrite decide_False by congruence. exact IH.
  - rewrite decide_False by congruence. exact IH.
Qed.

(** ** getExtensionActivities *)

Lemma GetExtensionActivities_RunImpl_query (f : Filter) w :
  GetExtensionActivities_RunImpl (Some f) w
  = Some (true, record_call (spec_query f) w).
Proof.
  destruct f as [t e a p g d].
  unfold GetExtensionActivities_RunImpl, spec_query. unfold_M. simpl.
  do 2 f_equal. f_equal. by destruct t.
Qed.

(** C1: for every filter handed to getExtensionActivities the function
    returns [true] after exactly one call on the store,
    [GetFilteredActions] with the six arguments of the translated filter:
    the activity type goes through the table and every value outside it,
    like [ANY], selects [ACTION_ANY]; an absent string member becomes the
    empty string and a present one is passed as it is; an absent
    [days_ago] becomes [-1] and a present one is passed as it is. *)
Theorem getExtensionActivities_translates_filter (f : Filter) w :
  GetExtensionActivities_RunImpl (Some f) w
  = Some (true, record_call (spec_query f) w).
Proof. apply GetExtensionActivities_RunImpl_query. Qed.

(** C9: [days_ago] is not range checked. Whatever integer the filter
    carries, negative ones included, is the sixth argument of the store
    query, so a filter that carries [-1] issues the very query of the same
    filter without [days_ago]. *)
Theorem getExtensionActivities_days_ago_unchecked (f : Filter) (d : Z) w :
  GetExtensionActivities_RunImpl (Some (with_days_ago (Some d) f)) w
  = Some (true,
          record_call
            (GetFilteredActions
               (default EmptyString (extension_id f))
               (spec_action_kind (activity_type f))
               (default EmptyString (api_call f))
               (default EmptyString (page_url f))
               (default EmptyString (arg_url f))
               d Bind_OnLookupCompleted) w)
  /\ GetExtensionActivities_RunImpl (Some (with_days_ago (Some (-1)) f)) w
     = GetExtensionActivities_RunImpl (Some (with_days_ago None f)) w.
Proof.
  split.
  - rewrite GetExtensionActivities_RunImpl_query. reflexivity.
  - rewrite !GetExtensionActivities_RunImpl_query. reflexivity.
Qed.

(** C4: when the lookup completes with a sequence of actions, the function
    sends one response, a success, whose result set holds the conversion
    of every action, one per action and in the order of the store. *)
Theorem OnLookupCompleted_converts_in_order (actions : list Action) w :
  OnLookupCompleted actions w
  = Some (tt, record_call
                (SendResponse true
                   {| activities := ConvertToExtensionActivity <$> actions |}) w).
Proof.
  unfold OnLookupCompleted. unfold_M.
  rewrite convert_actions_app. reflexivity.
Qed.

(** ** deleteActivities *)

Lemma DeleteActivities_RunImpl_call (activity_ids : list string) w :
  DeleteActivities_RunImpl (Some activity_ids) w
  = Some (true, record_call (RemoveActions (parse_activity_ids activity_ids)) w).
Proof. reflexivity. Qed.

(** C3: the list handed to [RemoveActions] is the list of identifier
    strings with every string replaced by the number [StringToInt64] read
    from it and every string it rejected left out, in the order of the
    input. *)
Theorem deleteActivities_forwards_parsed_ids (activity_ids : list string) w :
  DeleteActivities_RunImpl (Some activity_ids) w
  = Some (true, record_call (RemoveActions (omap parsed_id activity_ids)) w).
Proof.
  rewrite DeleteActivities_RunImpl_call, parse_activity_ids_omap. reflexivity.
Qed.

(** C8: with an empty identifier list the store is still called, once:
    the calls of the function are the single [RemoveActions] of the empty
    list. *)
Theorem deleteActivities_empty_list_not_elided w :
  DeleteActivities_RunImpl (Some []) w
  = Some (true, record_call (RemoveActions []) w)
  /\ calls_of (DeleteActivities_RunImpl (Some [])) w = [RemoveActions []].
Proof.
  split; [reflexivity|].
  unfold calls_of. simpl. apply calls_since_record_call.
Qed.

(** C10, as amended: nothing is deduplicated. The function forwards one
    number for every input string that parses: a number appears in the
    forwarded list as often as there are input strings that parse to it,
    hence at least as often as any one such string appears in the input,
    and exactly as often when no other spelling of the number is in the
    input; a list made of [n] copies of a string forwards [n] copies of
    its number. The decimal reading accepts the negative string [-5]. *)
Theorem deleteActivities_keeps_duplicates
    (activity_ids : list string) (id : string) (v : Z) (n : nat) w :
  StringToInt64 id = (true, v) ->
  DeleteActivities_RunImpl (Some activity_ids) w
  = Some (true, record_call (RemoveActions (parse_activity_ids activity_ids)) w)
  /\ occurrences v (parse_activity_ids activity_ids)
     = length (filter (fun id' => parsed_id id' = Some v) activity_ids)
  /\ (occurrences id activity_ids
      <= occurrences v (parse_activity_ids activity_ids))%nat
  /\ ((forall id', id' ∈ activity_ids -> parsed_id id' = Some v -> id' = id) ->
      occurrences v (parse_activity_ids activity_ids)
      = occurrences id activity_ids)
  /\ parse_activity_ids (replicate n id) = replicate n v
  /\ StringToInt64_decimal "-5" = (true, -5).
Proof.
  intros Hid.
  assert (Hparsed : parsed_id id = Some v) by (unfold parsed_id; by rewrite Hid).
  split; [apply DeleteActivities_RunImpl_call|].
  rewrite !parse_activity_ids_omap.
  split; [apply occurrences_omap_parsed|].
  split; [|split; [|split; [|reflexivity]]].
  - rewrite occurrences_omap_parsed. unfold occurrences.
    induction activity_ids as [|x xs IH]; [reflexivity|].
    rewrite !filter_cons.
    destruct (decide (x = id)) as [->|Hne].
    + rewrite decide_True by exact Hparsed. simpl. lia.
    + destruct (decide (parsed_id x = Some v)); simpl; lia.
  - intros Honly. rewrite occurrences_omap_parsed. unfold occurrences.
    induction activity_ids as [|x xs IH]; [reflexivity|].
    rewrite !filter_cons.
    assert (IH' : length (filter (fun id' => parsed_id id' = Some v) xs)
                  = length (filter (fun y => y = id) xs)).
    { apply IH. intros id' Hin. apply Honly. by apply list_elem_of_further. }
    destruct (decide (x = id)) as [->|Hne].
    + rewrite decide_True by exact Hparsed. simpl. by rewrite IH'.
    + rewrite decide_False; [exact IH'|].
      intros Hx. apply Hne, Honly; [apply list_elem_of_here | exact Hx].
  - induction n as [|n IH]; [reflexivity|].
    simpl. cbn [omap list_omap]. rewrite Hparsed. f_equal. exact IH.
Qed.

(** ** deleteUrls *)

(** C7: the list handed to [RemoveURLs] holds one URL for every input
    string, at the same index, nothing being dropped; the URL is the parse
    of the string, and the parse of an empty or malformed string is the
    structurally-empty URL. *)
Theorem deleteUrls_forwards_every_url (urls : list string) w :
  DeleteUrls_RunImpl (Some (Some urls)) w
  = Some (true, record_call (RemoveURLs (GURL_of <$> urls)) w)
  /\ length (GURL_of <$> urls) = length urls
  /\ forall (i : nat) (url : string),
       urls !! i = Some url ->
       (GURL_of <$> urls) !! i = Some (GURL_of url)
       /\ (url = EmptyString \/ Canonicalize url = None ->
           GURL_of url = GURL_empty).
Proof.
  split; [|split].
  - unfold DeleteUrls_RunImpl. unfold_M. rewrite make_gurls_app. reflexivity.
  - apply length_fmap.
  - intros i url Hi. split.
    + rewrite list_lookup_fmap, Hi. reflexivity.
    + unfold GURL_of. intros [->|Hbad].
      * reflexivity.
      * destruct (decide (url = EmptyString)); [reflexivity|].
        by rewrite Hbad.
Qed.

(** ** The constructor, [Shutdown] and the observer callback *)

Lemma ActivityLogAPI_new_inert self context w :
  event_router w = None ->
  ActivityLogAPI_new self context w
  = Some ({| this := self; browser_context_ := context;
             activity_log_ := None; initialized_ := false |}, w).
Proof.
  intros Hnull. unfold ActivityLogAPI_new, has_event_router. unfold_M.
  rewrite Hnull. reflexivity.
Qed.

Lemma ActivityLogAPI_new_active self context w observers :
  event_router w = Some observers ->
  ActivityLogAPI_new self context w
  = Some ({| this := self; browser_context_ := context;
             activity_log_ := Some context; initialized_ := true |},
          {| event_router := Some (observers ++ [(kEventName, self)]);
             activity_log := activity_log w ++ [self];
             trace := trace w ++ [RegisterObserver self kEventName;
                                  AddObserver self] |}).
Proof.
  intros Hrouter.
  unfold ActivityLogAPI_new, has_event_router, EventRouter_RegisterObserver,
    ActivityLog_AddObserver.
  unfold_M. rewrite Hrouter. simpl. rewrite Hrouter. simpl.
  rewrite <- app_assoc. reflexivity.
Qed.

Lemma OnExtensionActivity_broadcast api activity w :
  is_Some (event_router w) ->
  OnExtensionActivity api activity w
  = Some (tt, record_call
                (BroadcastEvent (spec_event (browser_context_ api) activity)) w).
Proof.
  intros [observers Hrouter].
  unfold OnExtensionActivity, EventRouter_BroadcastEvent.
  rewrite Hrouter. reflexivity.
Qed.

Lemma OnExtensionActivity_null_router api activity w :
  event_router w = None -> OnExtensionActivity api activity w = None.
Proof.
  intros Hnull. unfold OnExtensionActivity, EventRouter_BroadcastEvent.
  by rewrite Hnull.
Qed.

Lemma Shutdown_uninitialized api w :
  initialized_ api = false -> Shutdown api w = Some (tt, w).
Proof. intros Hinit. unfold Shutdown. by rewrite Hinit. Qed.

Lemma lifecycle_inv self context ops w0 api w :
  lifecycle self context ops w0 = Some (api, w) ->
  exists w1, ActivityLogAPI_new self context w0 = Some (api, w1)
             /\ run_ops api ops w1 = Some (tt, w).
Proof.
  unfold lifecycle. unfold_M.
  destruct (ActivityLogAPI_new self context w0) as [[api' w1]|]; [|done].
  destruct (run_ops api' ops w1) as [[[] w2]|] eqn:Hrun; [|done].
  intros [= <- <-]. eauto.
Qed.

Lemma run_ops_cons api op ops w w' :
  run_ops api (op :: ops) w = Some (tt, w') ->
  exists w1, run_op api op w = Some (tt, w1) /\ run_ops api ops w1 = Some (tt, w').
Proof.
  simpl. unfold_M.
  destruct (run_op api op w) as [[[] w1]|]; [|done]. eauto.
Qed.

Lemma run_ops_app api ops1 ops2 w w' :
  run_ops api (ops1 ++ ops2) w = Some (tt, w') ->
  exists w1, run_ops api ops1 w = Some (tt, w1)
             /\ run_ops api ops2 w1 = Some (tt, w').
Proof.
  revert w. induction ops1 as [|op ops1 IH]; intros w Hrun.
  - exists w. split; [reflexivity | exact Hrun].
  - simpl app in Hrun. apply run_ops_cons in Hrun as (w1 & Hop & Hrest).
    destruct (IH _ Hrest) as (w2 & H1 & H2).
    exists w2. split; [|exact H2].
    simpl. unfold_M. rewrite Hop. exact H1.
Qed.

(** Every operation leaves the router in place, the activity log a
    sub-list of what it was, and only appends calls, none of them a query. *)
Lemma run_op_effect api op w w' :
  run_op api op w = Some (tt, w') ->
  (is_Some (event_router w) <-> is_Some (event_router w'))
  /\ (is_shutdown op = false ->
      event_router w' = event_router w /\ activity_log w' = activity_log w)
  /\ (router_registrations (this api) w = 0%nat ->
      router_registrations (this api) w' = 0%nat)
  /\ (log_registrations (this api) w = 0%nat ->
      log_registrations (this api) w' = 0%nat)
  /\ exists added, trace w' = trace w ++ added
                   /\ Forall (fun c => is_query c = false) added.
Proof.
  assert (Hsame : forall w1, Some (tt, w) = Some (tt, w1) ->
    (is_Some (event_router w) <-> is_Some (event_router w1))
    /\ (is_shutdown op = false ->
        event_router w1 = event_router w /\ activity_log w1 = activity_log w)
    /\ (router_registrations (this api) w = 0%nat ->
        router_registrations (this api) w1 = 0%nat)
    /\ (log_registrations (this api) w = 0%nat ->
        log_registrations (this api) w1 = 0%nat)
    /\ exists added, trace w1 = trace w ++ added
                     /\ Forall (fun c => is_query c = false) added).
  { intros w1 [= <-]. split_and!; try done.
    exists []. split; [by rewrite app_nil_r | constructor]. }
  destruct op as [| | |activity]; simpl; try apply Hsame.
  - unfold Shutdown.
    destruct (initialized_ api); simpl; [|apply Hsame].
    unfold EventRouter_UnregisterObserver, ActivityLog_RemoveObserver.
    unfold_M.
    destruct (event_router w) as [observers|] eqn:Hrouter; [|done].
    destruct (activity_log_ api); [|done].
    intros [= <-]. simpl. split; [|split; [|split; [|split]]].
    + split; eauto.
    + done.
    + intros _. unfold router_registrations. simpl.
      apply (length_filter_removed (fun r => snd r = this api)).
    + intros _. unfold log_registrations. simpl.
      apply (length_filter_removed (fun o => o = this api)).
    + eexists. split; [by rewrite <- app_assoc|].
      repeat constructor.
  - destruct (event_router w) as [observers|] eqn:Hrouter.
    + rewrite OnExtensionActivity_broadcast by (rewrite Hrouter; eauto).
      intros [= <-]. simpl. rewrite Hrouter.
      split; [|split; [|split; [|split]]]; try done.
      eexists. split; [reflexivity|]. repeat constructor.
    + by rewrite OnExtensionActivity_null_router.
Qed.

Lemma run_ops_effect api ops w w' :
  run_ops api ops w = Some (tt, w') ->
  (is_Some (event_router w) <-> is_Some (event_router w'))
  /\ (no_shutdown ops ->
      event_router w' = event_router w /\ activity_log w' = activity_log w)
  /\ (router_registrations (this api) w = 0%nat ->
      router_registrations (this api) w' = 0%nat)
  /\ (log_registrations (this api) w = 0%nat ->
      log_registrations (this api) w' = 0%nat)
  /\ exists added, trace w' = trace w ++ added
                   /\ Forall (fun c => is_query c = false) added.
Proof.
  revert w. induction ops as [|op ops IH]; intros w Hrun.
  - injection Hrun as <-. split; [done|]. split; [done|].
    split; [done|]. split; [done|].
    exists []. split; [by rewrite app_nil_r | constructor].
  - apply run_ops_cons in Hrun as (w1 & Hop & Hrest).
    destruct (run_op_effect _ _ _ _ Hop) as (Hr1 & Hk1 & Hz1 & Hl1 & a1 & Ht1 & Hq1).
    destruct (IH _ Hrest) as (Hr2 & Hk2 & Hz2 & Hl2 & a2 & Ht2 & Hq2).
    split; [by rewrite Hr1|]. split; [|split; [|split]].
    + intros Hno. inversion Hno as [|? ? Hop' Hops']; subst.
      destruct (Hk1 Hop') as [E1 E2]. destruct (Hk2 Hops') as [E3 E4].
      split; congruence.
    + auto.
    + auto.
    + exists (a1 ++ a2). split.
      * by rewrite Ht2, Ht1, <- app_assoc.
      * by apply Forall_app.
Qed.

(** In a profile without event router the constructed component never
    changes anything: every operation that returns leaves the world as it
    was. *)
Lemma run_ops_inert api ops w w' :
  initialized_ api = false ->
  event_router w = None ->
  run_ops api ops w = Some (tt, w') ->
  w' = w.
Proof.
  intros Hinit Hnull. revert w'. induction ops as [|op ops IH]; intros w' Hrun.
  - by injection Hrun as <-.
  - apply run_ops_cons in Hrun as (w1 & Hop & Hrest).
    assert (w1 = w) as ->; [|by apply IH].
    destruct op as [| | |activity]; simpl in Hop.
    + rewrite Shutdown_uninitialized in Hop by exact Hinit. by injection Hop.
    + by injection Hop.
    + by injection Hop.
    + by rewrite OnExtensionActivity_null_router in Hop.
Qed.

Lemma ActivityLogAPI_new_members self context w0 api w1 :
  ActivityLogAPI_new self context w0 = Some (api, w1) ->
  this api = self /\ browser_context_ api = context
  /\ initialized_ api = bool_decide (is_Some (event_router w0)).
Proof.
  destruct (event_router w0) as [observers|] eqn:Hrouter.
  - rewrite (ActivityLogAPI_new_active _ _ _ _ Hrouter). by intros [= <- <-].
  - rewrite (ActivityLogAPI_new_inert _ _ _ Hrouter). by intros [= <- <-].
Qed.

Lemma notify_observers_foreign api (observers : list Observer) activity w :
  length (filter (fun o => o = this api) observers) = 0%nat ->
  notify_observers api observers activity w = Some (tt, w).
Proof.
  induction observers as [|o observers IH]; [reflexivity|].
  rewrite filter_cons. simpl. unfold_M.
  destruct (decide (o = this api)); [done|]. exact IH.
Qed.

(** ** The observer bridge *)

(** C2: while the component is active, that is constructed in a profile
    with an event router and not shut down, every action delivered to
    [OnExtensionActivity] makes exactly one call, a [BroadcastEvent]; the
    event is named [onExtensionActivity], its argument list holds the
    value of the converted action and nothing else, and it is restricted
    to the browser context the component was constructed for. *)
Theorem OnExtensionActivity_broadcasts_once
    self context ops w0 api w (activity : Action) :
  is_Some (event_router w0) ->
  no_shutdown ops ->
  lifecycle self context ops w0 = Some (api, w) ->
  OnExtensionActivity api activity w
  = Some (tt, record_call (BroadcastEvent (spec_event context activity)) w)
  /\ calls_of (OnExtensionActivity api activity) w
     = [BroadcastEvent (spec_event context activity)].
Proof.
  intros Hrouter _ Hlife.
  apply lifecycle_inv in Hlife as (w1 & Hnew & Hrun).
  destruct (ActivityLogAPI_new_members _ _ _ _ _ Hnew) as (_ & Hctx & _).
  assert (Hrouter' : is_Some (event_router w)).
  { apply (run_ops_effect _ _ _ _ Hrun).
    destruct Hrouter as [observers Hrouter].
    rewrite (ActivityLogAPI_new_active _ _ _ _ Hrouter) in Hnew.
    injection Hnew as <- <-. simpl. eauto. }
  assert (Hcall := OnExtensionActivity_broadcast api activity w Hrouter').
  rewrite Hctx in Hcall. split; [exact Hcall|].
  unfold calls_of. rewrite Hcall. apply calls_since_record_call.
Qed.

(** ** The subscription state *)

(** C5, as amended: the invariant holds for every state the component
    reaches before [Shutdown] runs on an initialized component. If
    [initialized_] is true the component is registered exactly once with
    the event router and exactly once with the activity log; if it is
    false nothing was broadcast since construction and [Shutdown] returns
    without a call on either collaborator. *)
Theorem subscription_invariant_until_Shutdown self context ops w0 api w :
  router_registrations self w0 = 0%nat ->
  log_registrations self w0 = 0%nat ->
  event_router w0 = None \/ no_shutdown ops ->
  lifecycle self context ops w0 = Some (api, w) ->
  subscription_invariant w0 api w.
Proof.
  intros Hfresh_router Hfresh_log Hbefore Hlife.
  apply lifecycle_inv in Hlife as (w1 & Hnew & Hrun).
  destruct (event_router w0) as [observers|] eqn:Hrouter.
  - destruct Hbefore as [|Hno]; [done|].
    rewrite (ActivityLogAPI_new_active _ _ _ _ Hrouter) in Hnew.
    injection Hnew as <- <-.
    destruct (run_ops_effect _ _ _ _ Hrun) as (_ & Hkeep & _).
    destruct (Hkeep Hno) as [Hr Hl].
    split; [|done]. intros _.
    unfold router_registrations in Hfresh_router.
    rewrite Hrouter in Hfresh_router.
    unfold router_registrations, log_registrations in *.
    rewrite Hr, Hl. simpl.
    rewrite !list.filter_app, !length_app, Hfresh_router, Hfresh_log.
    rewrite !filter_cons, !decide_True by reflexivity. split; reflexivity.
  - rewrite (ActivityLogAPI_new_inert _ _ _ Hrouter) in Hnew.
    injection Hnew as <- <-.
    apply run_ops_inert in Hrun as ->; [|reflexivity|exact Hrouter].
    split; [done|]. intros _.
    rewrite calls_since_refl. split; reflexivity.
Qed.

(** ** After [Shutdown] *)

Lemma filter_query_none (added : list Call) :
  Forall (fun c => is_query c = false) added ->
  filter (fun c => is_query c = true) added = [].
Proof.
  intros Hnone. apply length_zero_iff_nil, length_filter_none.
  eapply Forall_impl; [|exact Hnone]. simpl. intros c Hc. by rewrite Hc.
Qed.

(** An extension function leaves the router and the observers of the
    activity log alone; the only query it can add is the one of
    [getExtensionActivities]. *)
Lemma RunImpl_effect (r : Request) (ok : bool) w w' :
  RunImpl r w = Some (ok, w') ->
  event_router w' = event_router w
  /\ activity_log w' = activity_log w
  /\ exists added,
       trace w' = trace w ++ added
       /\ filter (fun c => is_query c = true) added
          = queries_of_steps [Step_request r].
Proof.
  destruct r as [[f|]|[ids|]| |[[urls|]|]]; cbn [RunImpl].
  - rewrite GetExtensionActivities_RunImpl_query. intros [= <- <-].
    split; [done|]. split; [done|]. by exists [spec_query f].
  - unfold_M. intros [= <- <-]. split; [done|]. split; [done|].
    exists []. by rewrite app_nil_r.
  - rewrite DeleteActivities_RunImpl_call. intros [= <- <-].
    split; [done|]. split; [done|]. by eexists [_].
  - unfold_M. intros [= <- <-]. split; [done|]. split; [done|].
    exists []. by rewrite app_nil_r.
  - unfold DeleteDatabase_RunImpl. unfold_M. intros [= <- <-].
    split; [done|]. split; [done|]. by eexists [_].
  - unfold_M. intros [= <- <-].
    split; [done|]. split; [done|]. by eexists [_].
  - unfold_M. done.
  - unfold_M. intros [= <- <-]. split; [done|]. split; [done|].
    exists []. by rewrite app_nil_r.
Qed.

Lemma run_step_effect api (s : Step) w w' :
  run_step api s w = Some (tt, w') ->
  (is_Some (event_router w) <-> is_Some (event_router w'))
  /\ (router_registrations (this api) w = 0%nat ->
      router_registrations (this api) w' = 0%nat)
  /\ (log_registrations (this api) w = 0%nat ->
      log_registrations (this api) w' = 0%nat)
  /\ exists added,
       trace w' = trace w ++ added
       /\ filter (fun c => is_query c = true) added = queries_of_steps [s].
Proof.
  destruct s as [op|r|found]; cbn [run_step].
  - intros Hop.
    destruct (run_op_effect _ _ _ _ Hop) as (Hr & _ & Hzr & Hzl & added & Ht & Hq).
    split; [exact Hr|]. split; [exact Hzr|]. split; [exact Hzl|].
    exists added. split; [exact Ht|]. by apply filter_query_none.
  - unfold_M. destruct (RunImpl r w) as [[ok w1]|] eqn:Hrun; [|done].
    intros [= <-].
    destruct (RunImpl_effect _ _ _ _ Hrun) as (Hr & Hl & added & Ht & Hq).
    unfold router_registrations, log_registrations. rewrite Hr, Hl.
    split; [done|]. split; [done|]. split; [done|]. by exists added.
  - unfold OnLookupCompleted. unfold_M. intros [= <-].
    split; [done|]. split; [done|]. split; [done|]. by eexists [_].
Qed.

Lemma run_steps_effect api (steps : list Step) w w' :
  run_steps api steps w = Some (tt, w') ->
  (is_Some (event_router w) <-> is_Some (event_router w'))
  /\ (router_registrations (this api) w = 0%nat ->
      router_registrations (this api) w' = 0%nat)
  /\ (log_registrations (this api) w = 0%nat ->
      log_registrations (this api) w' = 0%nat)
  /\ exists added,
       trace w' = trace w ++ added
       /\ filter (fun c => is_query c = true) added = queries_of_steps steps.
Proof.
  revert w. induction steps as [|s steps IH]; intros w.
  - intros [= <-]. split; [done|]. split; [done|]. split; [done|].
    exists []. by rewrite app_nil_r.
  - cbn [run_steps]. unfold_M.
    destruct (run_step api s w) as [[[] w1]|] eqn:Hstep; [|done].
    intros Hrest.
    destruct (run_step_effect _ _ _ _ Hstep) as (Hr1 & Hzr1 & Hzl1 & a1 & Ht1 & Hq1).
    destruct (IH _ Hrest) as (Hr2 & Hzr2 & Hzl2 & a2 & Ht2 & Hq2).
    split; [by rewrite Hr1|]. split; [auto|]. split; [auto|].
    exists (a1 ++ a2). split; [by rewrite Ht2, Ht1, <- app_assoc|].
    rewrite list.filter_app, Hq1, Hq2.
    change (s :: steps) with ([s] ++ steps).
    unfold queries_of_steps. by rewrite omap_app.
Qed.

(** C6, as amended: once [Shutdown] has run on a component of a profile
    with an event router, the component stays unregistered from the router
    and from the activity log whatever happens afterwards (operations on
    the component, runs of the extension functions, completed lookups), so
    an action reported by the store runs no callback of the component and
    changes nothing. The component's own operations never query the store,
    but the extension functions are not gated by its state: the store
    queries made after [Shutdown] are exactly those of the
    [getExtensionActivities] runs, each of which still issues its query.
    [initialized_] is still true and [OnExtensionActivity] has no guard:
    called directly, it broadcasts its one event as before. *)
Theorem Shutdown_unregisters_bridge_unguarded self context pre w0 api w :
  is_Some (event_router w0) ->
  lifecycle self context (pre ++ [OpShutdown]) w0 = Some (api, w) ->
  initialized_ api = true
  /\ forall (steps : list Step) (w' : World),
       run_steps api steps w = Some (tt, w') ->
       router_registrations (this api) w' = 0%nat
       /\ log_registrations (this api) w' = 0%nat
       /\ (forall activity, ActivityLog_LogAction api activity w' = Some (tt, w'))
       /\ filter (fun c => is_query c = true) (calls_since w w')
          = queries_of_steps steps
       /\ (forall f : Filter,
             GetExtensionActivities_RunImpl (Some f) w'
             = Some (true, record_call (spec_query f) w'))
       /\ (forall activity,
             OnExtensionActivity api activity w'
             = Some (tt, record_call
                           (BroadcastEvent (spec_event context activity)) w')).
Proof.
  intros Hrouter Hlife.
  apply lifecycle_inv in Hlife as (w1 & Hnew & Hrun).
  destruct (ActivityLogAPI_new_members _ _ _ _ _ Hnew) as (_ & Hctx & Hinit).
  rewrite bool_decide_eq_true_2 in Hinit by exact Hrouter.
  split; [exact Hinit|].
  apply run_ops_app in Hrun as (w2 & Hpre & Hshut).
  apply run_ops_cons in Hshut as (w3 & Hshut & Hnil).
  injection Hnil as ->.
  assert (Hrouter2 : is_Some (event_router w2)).
  { apply (run_ops_effect _ _ _ _ Hpre).
    destruct Hrouter as [observers Hrouter].
    rewrite (ActivityLogAPI_new_active _ _ _ _ Hrouter) in Hnew.
    injection Hnew as <- <-. simpl. eauto. }
  assert (Hzero : router_registrations (this api) w = 0%nat
                  /\ log_registrations (this api) w = 0%nat
                  /\ is_Some (event_router w)).
  { simpl in Hshut. unfold Shutdown in Hshut. rewrite Hinit in Hshut.
    simpl in Hshut.
    unfold EventRouter_UnregisterObserver, ActivityLog_RemoveObserver in Hshut.
    unfold_M. destruct Hrouter2 as [observers Hrouter2].
    rewrite Hrouter2 in Hshut.
    destruct (activity_log_ api); [|done].
    injection Hshut as <-. split; [|split].
    - apply (length_filter_removed (fun r => snd r = this api)).
    - apply (length_filter_removed (fun o => o = this api)).
    - simpl. eauto. }
  destruct Hzero as (Hz_router & Hz_log & Hrouter3).
  intros steps w' Hsteps.
  destruct (run_steps_effect _ _ _ _ Hsteps) as (Hr & Hzr & Hzl & added & Ht & Hq).
  split; [auto|]. split; [auto|]. split; [|split; [|split]].
  - intros activity. unfold ActivityLog_LogAction.
    apply notify_observers_foreign. apply Hzl, Hz_log.
  - unfold calls_since. rewrite Ht, drop_app_length. exact Hq.
  - intros f. apply GetExtensionActivities_RunImpl_query.
  - intros activity. rewrite <- Hctx.
    apply OnExtensionActivity_broadcast, Hr, Hrouter3.
Qed.

End Properties.

(** * The properties on the concrete host *)

Section Concrete.

Local Existing Instance sample_host.

Local Open Scope string_scope.

(** ** Scenarios of the spec *)

Example scenario_filter_api_call :
  GetExtensionActivities_RunImpl
    (Some {| activity_type := ACTIVITY_TYPE_API_CALL;
             extension_id := Some "abc"; api_call := None; page_url := None;
             arg_url := None; days_ago := None |}) test_profile
  = Some (true,
          record_call
            (GetFilteredActions "abc" ACTION_API_CALL "" "" "" (-1)
               Bind_OnLookupCompleted) test_profile).
Proof. reflexivity. Qed.

Example scenario_filter_days_ago :
  GetExtensionActivities_RunImpl
    (Some {| activity_type := ACTIVITY_TYPE_ANY;
             extension_id := None; api_call := None; page_url := None;
             arg_url := None; days_ago := Some 3 |}) test_profile
  = Some (true,
          record_call
            (GetFilteredActions "" ACTION_ANY "" "" "" 3 Bind_OnLookupCompleted)
            test_profile).
Proof. reflexivity. Qed.

Example scenario_delete_activities :
  DeleteActivities_RunImpl (Some ["10"; "not-a-number"; "20"]) test_profile
  = Some (true, record_call (RemoveActions [10; 20]) test_profile).
Proof. reflexivity. Qed.

Example scenario_delete_urls :
  DeleteUrls_RunImpl (Some (Some ["http://a.example/"; ""; "garbage"])) test_profile
  = Some (true,
          record_call
            (RemoveURLs [ {| spec_ := "http://a.example/"; is_valid_ := true |};
                          GURL_empty; GURL_empty ]) test_profile).
Proof. reflexivity. Qed.

Example scenario_test_profile :
  lifecycle 1%nat 7%nat [OpShutdown] test_profile
  = Some ({| this := 1%nat; browser_context_ := 7%nat;
             activity_log_ := None; initialized_ := false |}, test_profile).
Proof. reflexivity. Qed.

(** In a test profile the callback is no silent no-op: the call through
    the null router is a fault. *)
Example scenario_test_profile_callback :
  lifecycle 1%nat 7%nat [OpOnExtensionActivity sample_action] test_profile = None.
Proof. reflexivity. Qed.

(** ** Witnesses *)

Lemma OnExtensionActivity_broadcasts_once_witness :
  is_Some (event_router browser_profile)
  /\ no_shutdown [OpOnListenerAdded]
  /\ lifecycle 1%nat 7%nat [OpOnListenerAdded] browser_profile
     = Some (sample_api, constructed_world)
  /\ OnExtensionActivity sample_api sample_action constructed_world
     = Some (tt, record_call
                   (BroadcastEvent (spec_event 7%nat sample_action))
                   constructed_world)
  /\ calls_of (OnExtensionActivity sample_api sample_action) constructed_world
     = [BroadcastEvent (spec_event 7%nat sample_action)].
Proof.
  assert (H1 : is_Some (event_router browser_profile)) by (simpl; eauto).
  assert (H2 : no_shutdown [@OpOnListenerAdded sample_host])
    by (repeat constructor).
  assert (H3 : lifecycle 1%nat 7%nat [OpOnListenerAdded] browser_profile
               = Some (sample_api, constructed_world)) by reflexivity.
  split; [exact H1|]. split; [exact H2|]. split; [exact H3|].
  exact (OnExtensionActivity_broadcasts_once
           1%nat 7%nat _ _ _ _ sample_action H1 H2 H3).
Defined.

Lemma subscription_invariant_until_Shutdown_witness :
  router_registrations 1%nat browser_profile = 0%nat
  /\ log_registrations 1%nat browser_profile = 0%nat
  /\ no_shutdown [OpOnExtensionActivity sample_action; OpOnListenerRemoved]
  /\ subscription_invariant browser_profile sample_api
       (record_call (BroadcastEvent (spec_event 7%nat sample_action))
          constructed_world).
Proof.
  assert (H1 : router_registrations 1%nat browser_profile = 0%nat)
    by reflexivity.
  assert (H2 : log_registrations 1%nat browser_profile = 0%nat)
    by reflexivity.
  assert (H3 : no_shutdown
                 [OpOnExtensionActivity sample_action; OpOnListenerRemoved])
    by (repeat constructor).
  split; [exact H1|]. split; [exact H2|]. split; [exact H3|].
  apply (subscription_invariant_until_Shutdown 1%nat 7%nat
           [OpOnExtensionActivity sample_action; OpOnListenerRemoved]
           browser_profile); [exact H1 | exact H2 | right; exact H3 | reflexivity].
Defined.

Lemma Shutdown_unregisters_bridge_unguarded_witness :
  is_Some (event_router browser_profile)
  /\ lifecycle 1%nat 7%nat ([] ++ [OpShutdown]) browser_profile
     = Some (sample_api, shut_world)
  /\ initialized_ sample_api = true
  /\ ActivityLog_LogAction sample_api sample_action shut_world
     = Some (tt, shut_world)
  /\ GetExtensionActivities_RunImpl
       (Some {| activity_type := ACTIVITY_TYPE_ANY; extension_id := None;
                api_call := None; page_url := None; arg_url := None;
                days_ago := None |}) shut_world
     = Some (true,
             record_call
               (GetFilteredActions "" ACTION_ANY "" "" "" (-1)
                  Bind_OnLookupCompleted) shut_world)
  /\ OnExtensionActivity sample_api sample_action shut_world
     = Some (tt, record_call
                   (BroadcastEvent (spec_event 7%nat sample_action)) shut_world).
Proof.
  assert (H1 : is_Some (event_router browser_profile)) by (simpl; eauto).
  assert (H2 : lifecycle 1%nat 7%nat ([] ++ [OpShutdown]) browser_profile
               = Some (sample_api, shut_world)) by reflexivity.
  destruct (Shutdown_unregisters_bridge_unguarded 1%nat 7%nat [] _ _ _ H1 H2)
    as [Hinit Hafter].
  destruct (Hafter [] shut_world eq_refl)
    as (_ & _ & Hlog & _ & Hquery & Hbridge).
  split; [exact H1|]. split; [exact H2|]. split; [exact Hinit|].
  split; [apply Hlog|]. split; [apply Hquery | apply Hbridge].
Defined.

Lemma deleteActivities_keeps_duplicates_witness :
  StringToInt64 "-5" = (true, -5)
  /\ occurrences (-5) (parse_activity_ids ["-5"; "7"; "-5"]) = 2%nat
  /\ parse_activity_ids (replicate 3 "-5") = [-5; -5; -5].
Proof.
  assert (H : StringToInt64 "-5" = (true, -5)) by reflexivity.
  destruct (deleteActivities_keeps_duplicates
              ["-5"; "7"; "-5"] "-5" (-5) 3 test_profile H)
    as (_ & Hcount & _ & _ & Hcopies & _).
  split; [exact H|]. split; [|exact Hcopies].
  rewrite Hcount. reflexivity.
Defined.

Lemma deleteUrls_forwards_every_url_witness :
  ["http://a.example/"; ""; "garbage"] !! 2%nat = Some "garbage"
  /\ Canonicalize "garbage" = None
  /\ (GURL_of <$> ["http://a.example/"; ""; "garbage"]) !! 2%nat
     = Some GURL_empty.
Proof.
  assert (H : ["http://a.example/"; ""; "garbage"] !! 2%nat = Some "garbage")
    by reflexivity.
  assert (Hbad : Canonicalize "garbage" = None) by reflexivity.
  destruct (deleteUrls_forwards_every_url
              ["http://a.example/"; ""; "garbage"] test_profile)
    as (_ & _ & Hat).
  destruct (Hat 2%nat "garbage" H) as [Hlookup Hempty].
  split; [exact H|]. split; [exact Hbad|].
  rewrite Hlookup, (Hempty (or_intror Hbad)). reflexivity.
Defined.

(** ** Counterexamples *)

(** C5 as stated fails: after the constructor and a [Shutdown] in a
    profile with an event router, [initialized_] is still true and the
    component has no registration left. *)
Lemma subscription_invariant_broken_by_Shutdown :
  router_registrations 1%nat browser_profile = 0%nat
  /\ log_registrations 1%nat browser_profile = 0%nat
  /\ lifecycle 1%nat 7%nat [OpShutdown] browser_profile
     = Some (sample_api, shut_world)
  /\ initialized_ sample_api = true
  /\ router_registrations (this sample_api) shut_world = 0%nat
  /\ ~ subscription_invariant browser_profile sample_api shut_world.
Proof.
  split; [reflexivity|]. split; [reflexivity|]. split; [reflexivity|].
  split; [reflexivity|]. split; [reflexivity|].
  intros [Hinit _]. destruct (Hinit eq_refl) as [Hone _].
  cbn in Hone. discriminate Hone.
Qed.

(** C10 as stated fails: the string "5" occurs twice in the input, and
    since "05" is read as the same number, 5 is forwarded three times. *)
Lemma forwards_more_than_the_string_occurs :
  StringToInt64 "5" = (true, 5)
  /\ occurrences "5" ["5"; "05"; "5"] = 2%nat
  /\ parse_activity_ids ["5"; "05"; "5"] = [5; 5; 5]
  /\ occurrences 5 (parse_activity_ids ["5"; "05"; "5"]) = 3%nat
  /\ ~ forwards_same_count ["5"; "05"; "5"].
Proof.
  split; [reflexivity|]. split; [reflexivity|]. split; [reflexivity|].
  split; [reflexivity|].
  intros Hsame. specialize (Hsame "5" 5 eq_refl).
  assert (Htwice : (2 <= occurrences "5" ["5"; "05"; "5"])%nat)
    by (apply Nat.eq_le_incl; reflexivity).
  specialize (Hsame Htwice). cbn in Hsame. discriminate Hsame.
Qed.

(** C6 as stated fails: after [Shutdown] the observer callback, when it
    is called, still broadcasts. *)
Lemma bridge_not_silent_after_Shutdown :
  is_Some (event_router browser_profile)
  /\ lifecycle 1%nat 7%nat [OpShutdown] browser_profile
     = Some (sample_api, shut_world)
  /\ calls_of (OnExtensionActivity sample_api sample_action) shut_world
     = [BroadcastEvent (spec_event 7%nat sample_action)]
  /\ ~ silent_after_shutdown sample_api shut_world.
Proof.
  split; [simpl; eauto|]. split; [reflexivity|]. split; [reflexivity|].
  intros Hsilent.
  destruct (Hsilent [] shut_world eq_refl) as (_ & _ & Hnoop).
  specialize (Hnoop sample_action). cbn in Hnoop. discriminate Hnoop.
Qed.

End Concrete.

(** * More properties of the API *)

Section MoreProperties.

Context `{host : Collaborators}.

Implicit Types (w : World) (api : ActivityLogAPI) (c : Call).

Ltac unfold_M' :=
  unfold mbind, M_bind, mret, M_ret, call, fault in *.

Lemma record_call_inj c c' w :
  record_call c w = record_call c' w -> c = c'.
Proof.
  unfold record_call. intros [= Htrace].
  by apply app_inv_head in Htrace as [= ->].
Qed.

Lemma calls_since_app w w' (added : list Call) :
  trace w' = trace w ++ added -> calls_since w w' = added.
Proof. unfold calls_since. intros ->. apply drop_app_length. Qed.

(** ** The life of an initialized component *)

Lemma run_op_calls api op w context :
  initialized_ api = true ->
  activity_log_ api = Some context ->
  is_Some (event_router w) ->
  exists w', run_op api op w = Some (tt, w')
             /\ trace w' = trace w ++ op_calls api op
             /\ is_Some (event_router w').
Proof.
  intros Hinit Hlog [observers Hrouter].
  destruct op as [| | |activity]; simpl.
  - unfold Shutdown, EventRouter_UnregisterObserver, ActivityLog_RemoveObserver.
    rewrite Hinit, Hlog. unfold_M'. simpl. rewrite Hrouter.
    eexists. split; [reflexivity|]. simpl. split; [|eauto].
    by rewrite <- app_assoc.
  - exists w. rewrite app_nil_r, Hrouter. eauto.
  - exists w. rewrite app_nil_r, Hrouter. eauto.
  - rewrite OnExtensionActivity_broadcast by (rewrite Hrouter; eauto).
    eexists. split; [reflexivity|]. simpl. rewrite Hrouter. eauto.
Qed.

Lemma run_ops_calls api ops w context :
  initialized_ api = true ->
  activity_log_ api = Some context ->
  is_Some (event_router w) ->
  exists w', run_ops api ops w = Some (tt, w')
             /\ trace w' = trace w ++ flat_map (op_calls api) ops.
Proof.
  intros Hinit Hlog. revert w.
  induction ops as [|op ops IH]; intros w Hrouter.
  - exists w. by rewrite app_nil_r.
  - destruct (run_op_calls api op w context Hinit Hlog Hrouter)
      as (w1 & Hop & Ht1 & Hr1).
    destruct (IH w1 Hr1) as (w2 & Hrest & Ht2).
    exists w2. split.
    + simpl. unfold_M'. by rewrite Hop.
    + simpl. by rewrite Ht2, Ht1, <- app_assoc.
Qed.

Lemma lifecycle_active self context ops w0 observers :
  event_router w0 = Some observers ->
  exists w,
    lifecycle self context ops w0
    = Some ({| this := self; browser_context_ := context;
               activity_log_ := Some context; initialized_ := true |}, w)
    /\ trace w
       = trace w0
         ++ [RegisterObserver self kEventName; AddObserver self]
         ++ flat_map
              (op_calls {| this := self; browser_context_ := context;
                           activity_log_ := Some context;
                           initialized_ := true |}) ops.
Proof.
  intros Hrouter.
  set (api := {| this := self; browser_context_ := context;
                 activity_log_ := Some context; initialized_ := true |}).
  pose proof (ActivityLogAPI_new_active self context w0 observers Hrouter)
    as Hnew.
  match type of Hnew with _ = Some (_, ?w1) => set (w1' := w1) in * end.
  destruct (run_ops_calls api ops w1' context eq_refl eq_refl) as (w & Hrun & Ht).
  { simpl. eauto. }
  exists w. split.
  - unfold lifecycle. unfold_M'. fold api in Hnew. rewrite Hnew, Hrun.
    reflexivity.
  - rewrite Ht. simpl. by rewrite <- app_assoc.
Qed.

(** X1: in a profile with an event router the calls of a component's
    whole life are known from the operations alone: the constructor
    registers with the event router and then with the activity log, every
    delivered action adds its one broadcast, the listener callbacks add
    nothing and every [Shutdown] adds an [UnregisterObserver] followed by a
    [RemoveObserver], in the order of the operations. *)
Theorem lifecycle_trace self context ops w0 api w :
  is_Some (event_router w0) ->
  lifecycle self context ops w0 = Some (api, w) ->
  calls_since w0 w
  = [RegisterObserver self kEventName; AddObserver self]
    ++ flat_map (op_calls api) ops.
Proof.
  intros [observers Hrouter] Hlife.
  destruct (lifecycle_active self context ops w0 observers Hrouter)
    as (w' & Hlife' & Htrace).
  rewrite Hlife' in Hlife. injection Hlife as <- <-.
  by apply calls_since_app.
Qed.

Lemma filter_broadcast_op_calls api ops :
  filter (fun c => is_broadcast c = true) (flat_map (op_calls api) ops)
  = (fun activity => BroadcastEvent (spec_event (browser_context_ api) activity))
      <$> delivered_actions ops.
Proof.
  induction ops as [|op ops IH]; [reflexivity|].
  simpl. rewrite list.filter_app, IH.
  destruct op; reflexivity.
Qed.

(** X2: the broadcasts of a component are the actions delivered to it:
    one event for each, in the order of delivery, none merged, dropped or
    repeated, and nothing else the component does broadcasts. *)
Theorem broadcasts_follow_deliveries self context ops w0 api w :
  is_Some (event_router w0) ->
  lifecycle self context ops w0 = Some (api, w) ->
  filter (fun c => is_broadcast c = true) (calls_since w0 w)
  = (fun activity => BroadcastEvent (spec_event context activity))
      <$> delivered_actions ops.
Proof.
  intros [observers Hrouter] Hlife.
  destruct (lifecycle_active self context ops w0 observers Hrouter)
    as (w' & Hlife' & Htrace).
  rewrite Hlife' in Hlife. injection Hlife as <- <-.
  rewrite (calls_since_app _ _ _ Htrace).
  rewrite list.filter_app, filter_broadcast_op_calls. reflexivity.
Qed.

Lemma run_ops_null_router api ops w :
  initialized_ api = false ->
  event_router w = None ->
  run_ops api ops w
  = if bool_decide (Exists (fun op => is_callback op = true) ops)
    then None else Some (tt, w).
Proof.
  intros Hinit Hnull. induction ops as [|op ops IH].
  - rewrite bool_decide_eq_false_2; [reflexivity|]. by intros ?%Exists_nil.
  - assert (Hskip : forall op', is_callback op' = false ->
              bool_decide (Exists (fun op => is_callback op = true) (op' :: ops))
              = bool_decide (Exists (fun op => is_callback op = true) ops)).
    { intros op' Hop'. apply bool_decide_ext. rewrite Exists_cons.
      rewrite Hop'. split; [intros [?|?]; [discriminate | assumption]|].
      intros ?. by right. }
    destruct op as [| | |activity].
    + rewrite Hskip by reflexivity. cbn [run_ops run_op]. unfold_M'.
      rewrite Shutdown_uninitialized by exact Hinit. exact IH.
    + rewrite Hskip by reflexivity. exact IH.
    + rewrite Hskip by reflexivity. exact IH.
    + rewrite bool_decide_eq_true_2 by (by left).
      cbn [run_ops run_op]. unfold_M'.
      by rewrite OnExtensionActivity_null_router.
Qed.

(** X3: a component's life runs into a null pointer in one case only:
    the profile has no event router and the observer callback is called.
    The constructor, the listener callbacks and [Shutdown] never do. *)
Theorem lifecycle_faults_iff self context ops w0 :
  lifecycle self context ops w0 = None
  <-> event_router w0 = None
      /\ Exists (fun op => is_callback op = true) ops.
Proof.
  destruct (event_router w0) as [observers|] eqn:Hrouter.
  - destruct (lifecycle_active self context ops w0 observers Hrouter)
      as (w & -> & _).
    split; [done | by intros [? _]].
  - unfold lifecycle. unfold_M'.
    rewrite (ActivityLogAPI_new_inert _ _ _ Hrouter).
    rewrite run_ops_null_router by done.
    case_bool_decide as Hex.
    + split; [done | reflexivity].
    + split; [done | by intros [_ ?]].
Qed.

Lemma filter_filter_other {A} (P Q : A -> Prop)
    `{forall x, Decision (P x)} `{forall x, Decision (Q x)} (l : list A) :
  (forall x, P x -> Q x) ->
  filter P (filter Q l) = filter P l.
Proof.
  intros HPQ. induction l as [|x l IH]; [reflexivity|].
  rewrite (filter_cons Q). destruct (decide (Q x)) as [HQ|HQ].
  - rewrite !filter_cons, IH. reflexivity.
  - rewrite filter_cons, decide_False by (intros HP; apply HQ, HPQ, HP).
    exact IH.
Qed.

Lemma filter_idemp {A} (P : A -> Prop) `{forall x, Decision (P x)} (l : list A) :
  filter P (filter P l) = filter P l.
Proof. by apply filter_filter_other. Qed.

(** X4: [Shutdown] does not guard against being run again, since it never
    clears [initialized_]: on an initialized component a second [Shutdown]
    repeats the [UnregisterObserver] and the [RemoveObserver] of the first,
    and leaves both observer lists as the first left them. *)
Theorem Shutdown_twice_repeats_calls api w context :
  initialized_ api = true ->
  activity_log_ api = Some context ->
  is_Some (event_router w) ->
  exists w1 w2,
    Shutdown api w = Some (tt, w1)
    /\ Shutdown api w1 = Some (tt, w2)
    /\ calls_since w w1
       = [UnregisterObserver (this api); RemoveObserver (this api)]
    /\ calls_since w1 w2
       = [UnregisterObserver (this api); RemoveObserver (this api)]
    /\ event_router w2 = event_router w1
    /\ activity_log w2 = activity_log w1.
Proof.
  intros Hinit Hlog [observers Hrouter].
  unfold Shutdown, EventRouter_UnregisterObserver, ActivityLog_RemoveObserver.
  rewrite Hinit, Hlog. unfold_M'. simpl. rewrite Hrouter.
  eexists. eexists. split; [reflexivity|]. simpl.
  split; [reflexivity|]. split; [|split; [|split]].
  - apply calls_since_app. simpl. by rewrite <- app_assoc.
  - apply calls_since_app. simpl. by rewrite <- app_assoc.
  - simpl. f_equal. apply (filter_idemp (fun r => snd r <> this api)).
  - simpl. apply (filter_idemp (fun o => o <> this api)).
Qed.

Lemma run_op_other_observers api op w w' (o : Observer) :
  o <> this api ->
  run_op api op w = Some (tt, w') ->
  router_registrations o w' = router_registrations o w
  /\ log_registrations o w' = log_registrations o w.
Proof.
  intros Hother.
  destruct op as [| | |activity]; simpl.
  - unfold Shutdown. destruct (initialized_ api); simpl.
    + unfold EventRouter_UnregisterObserver, ActivityLog_RemoveObserver.
      unfold_M'.
      destruct (event_router w) as [observers|] eqn:Hrouter; [|done].
      destruct (activity_log_ api); [|done].
      intros [= <-]. unfold router_registrations, log_registrations.
      simpl. rewrite Hrouter. split; f_equal.
      * apply (filter_filter_other (fun r => snd r = o)). congruence.
      * apply (filter_filter_other (fun o' => o' = o)). congruence.
    + unfold_M'. by intros [= <-].
  - unfold OnListenerAdded. unfold_M'. by intros [= <-].
  - unfold OnListenerRemoved. unfold_M'. by intros [= <-].
  - destruct (event_router w) as [observers|] eqn:Hrouter.
    + rewrite OnExtensionActivity_broadcast by (rewrite Hrouter; eauto).
      by intros [= <-].
    + by rewrite OnExtensionActivity_null_router.
Qed.

(** X5: a component only ever touches its own registrations: through its
    construction and everything that runs on it later, the registrations
    of every other observer with the event router and with the activity
    log stay what they were. *)
Theorem lifecycle_keeps_other_observers self context ops w0 api w
    (o : Observer) :
  o <> self ->
  lifecycle self context ops w0 = Some (api, w) ->
  router_registrations o w = router_registrations o w0
  /\ log_registrations o w = log_registrations o w0.
Proof.
  intros Hother Hlife.
  apply lifecycle_inv in Hlife as (w1 & Hnew & Hrun).
  destruct (ActivityLogAPI_new_members _ _ _ _ _ Hnew) as (Hthis & _ & _).
  assert (Hfirst : router_registrations o w1 = router_registrations o w0
                   /\ log_registrations o w1 = log_registrations o w0).
  { destruct (event_router w0) as [observers|] eqn:Hrouter.
    - rewrite (ActivityLogAPI_new_active _ _ _ _ Hrouter) in Hnew.
      injection Hnew as _ <-.
      unfold router_registrations, log_registrations. simpl.
      rewrite Hrouter, !list.filter_app, !filter_cons.
      rewrite !decide_False by (simpl; congruence).
      by rewrite !filter_nil, !app_nil_r.
    - rewrite (ActivityLogAPI_new_inert _ _ _ Hrouter) in Hnew.
      by injection Hnew as _ <-. }
  destruct Hfirst as [<- <-]. clear Hnew.
  revert w1 Hrun. induction ops as [|op ops IH]; intros w1 Hrun.
  - by injection Hrun as <-.
  - apply run_ops_cons in Hrun as (w2 & Hop & Hrest).
    destruct (run_op_other_observers api op w1 w2 o) as [<- <-];
      [congruence | exact Hop |].
    by apply IH.
Qed.

(** ** The four extension functions *)

(** X6: whichever of the four extension functions runs and whatever its
    arguments, a run that returns leaves the event router and the observer
    list of the activity log alone. When it returns [true] it has made
    exactly one call, one of the four store requests; when it returns
    [false] (the arguments did not validate) it has done nothing. *)
Theorem RunImpl_one_store_request (r : Request) (ok : bool) w w' :
  RunImpl r w = Some (ok, w') ->
  event_router w' = event_router w
  /\ activity_log w' = activity_log w
  /\ (if ok then exists c, calls_since w w' = [c] /\ is_store_request c = true
      else w' = w).
Proof.
  destruct r as [[f|]|[ids|]| |[[urls|]|]]; cbn [RunImpl].
  - rewrite GetExtensionActivities_RunImpl_query. intros [= <- <-].
    split; [done|]. split; [done|].
    eexists. split; [apply calls_since_record_call | reflexivity].
  - unfold_M'. by intros [= <- <-].
  - rewrite DeleteActivities_RunImpl_call. intros [= <- <-].
    split; [done|]. split; [done|].
    eexists. split; [apply calls_since_record_call | reflexivity].
  - unfold_M'. by intros [= <- <-].
  - unfold DeleteDatabase_RunImpl. unfold_M'. intros [= <- <-].
    split; [done|]. split; [done|].
    eexists. split; [apply calls_since_record_call | reflexivity].
  - unfold_M'. intros [= <- <-].
    split; [done|]. split; [done|].
    eexists. split; [apply calls_since_record_call | reflexivity].
  - unfold_M'. done.
  - unfold_M'. by intros [= <- <-].
Qed.

(** X7: a complete [getExtensionActivities] exchange makes two calls, in
    this order: the query built from the filter, then one successful
    response that carries the converted actions. When the arguments do not
    validate there is neither a query nor a response. *)
Theorem getExtensionActivities_exchange_calls
    (params : option Filter) (found : list Action) w :
  calls_of (getExtensionActivities_exchange params found) w
  = match params with
    | Some f =>
        [spec_query f;
         SendResponse true
           {| activities := ConvertToExtensionActivity <$> found |}]
    | None => []
    end.
Proof.
  unfold calls_of, getExtensionActivities_exchange. unfold_M'.
  destruct params as [f|].
  - rewrite GetExtensionActivities_RunImpl_query.
    unfold OnLookupCompleted. unfold_M'. rewrite convert_actions_app.
    apply calls_since_app. simpl. by rewrite <- app_assoc.
  - simpl. apply calls_since_refl.
Qed.

(** X8: spelling out the defaults changes nothing. A filter and the same
    filter with every absent string given as the empty string, an absent
    [days_ago] given as [-1] and a type outside the enum given as [ANY]
    run alike. *)
Theorem getExtensionActivities_explicit_filter (f : Filter) w :
  GetExtensionActivities_RunImpl (Some (explicit_filter f)) w
  = GetExtensionActivities_RunImpl (Some f) w.
Proof.
  rewrite !GetExtensionActivities_RunImpl_query.
  destruct f as [t e a p g d]. unfold spec_query. simpl.
  do 3 f_equal. by destruct t.
Qed.

(** X9: the query tells two filters apart exactly as far as their
    explicit forms differ. In particular two filters whose types are both
    enumerators and that run alike have the same type: the switch sends
    the seven enumerators to seven different action types. *)
Theorem getExtensionActivities_same_query_iff (f1 f2 : Filter) w :
  GetExtensionActivities_RunImpl (Some f1) w
  = GetExtensionActivities_RunImpl (Some f2) w
  <-> explicit_filter f1 = explicit_filter f2.
Proof.
  rewrite !GetExtensionActivities_RunImpl_query. split.
  - intros Hsame.
    assert (Hrec : record_call (spec_query f1) w = record_call (spec_query f2) w)
      by congruence.
    apply record_call_inj in Hrec. clear Hsame. rename Hrec into Hsame.
    destruct f1 as [t1 e1 a1 p1 g1 d1], f2 as [t2 e2 a2 p2 g2 d2].
    unfold spec_query, explicit_filter in *. simpl in *.
    injection Hsame as -> Hkind -> -> -> ->.
    f_equal. by destruct t1, t2.
  - intros Hsame.
    assert (Hq : forall f, spec_query (explicit_filter f) = spec_query f).
    { intros [t e a p g d]. unfold spec_query. simpl. f_equal. by destruct t. }
    by rewrite <- (Hq f1), <- (Hq f2), Hsame.
Qed.

(** ** What [deleteActivities] and [deleteUrls] forward *)

Lemma omap_parsed_id_length (activity_ids : list string) :
  (length (omap parsed_id activity_ids) <= length activity_ids)%nat
  /\ (length (omap parsed_id activity_ids) = length activity_ids
      <-> Forall (fun id => fst (StringToInt64 id) = true) activity_ids).
Proof.
  induction activity_ids as [|id ids [IHle IHeq]].
  - split; [reflexivity|]. split; [constructor | reflexivity].
  - cbn [omap list_omap]. rewrite Forall_cons_iff.
    destruct (fst (StringToInt64 id)) eqn:Hok.
    + assert (parsed_id id = Some (snd (StringToInt64 id))) as ->
        by (unfold parsed_id; by rewrite Hok).
      simpl. split; [lia|]. split.
      * intros Hlen. split; [done|]. apply IHeq. lia.
      * intros [_ Hall]. f_equal. by apply IHeq.
    + assert (parsed_id id = None) as ->
        by (unfold parsed_id; by rewrite Hok).
      simpl. split; [lia|]. split.
      * intros Hlen. lia.
      * intros [Hbad _]. discriminate.
Qed.

(** X10: [deleteActivities] never forwards more identifiers than it was
    given, and it forwards as many exactly when [StringToInt64] accepts
    every one of them. *)
Theorem deleteActivities_forwarded_length (activity_ids : list string) :
  (length (parse_activity_ids activity_ids) <= length activity_ids)%nat
  /\ (length (parse_activity_ids activity_ids) = length activity_ids
      <-> Forall (fun id => fst (StringToInt64 id) = true) activity_ids).
Proof. rewrite parse_activity_ids_omap. apply omap_parsed_id_length. Qed.

(** X11: when [StringToInt64] rejects every identifier, the store is
    still called: [RemoveActions] gets the empty list. *)
Theorem deleteActivities_all_rejected (activity_ids : list string) w :
  Forall (fun id => fst (StringToInt64 id) = false) activity_ids ->
  DeleteActivities_RunImpl (Some activity_ids) w
  = Some (true, record_call (RemoveActions []) w).
Proof.
  intros Hall. rewrite DeleteActivities_RunImpl_call, parse_activity_ids_omap.
  do 3 f_equal.
  induction Hall as [|id ids Hid _ IH]; [reflexivity|].
  cbn [omap list_omap]. unfold parsed_id at 1. by rewrite Hid.
Qed.

(** X12: the parse of one identifier does not depend on the ones before
    it (the variable [value] shared by the iterations carries nothing
    over): the forwarded list of two lists put end to end is the forwarded
    list of the first followed by that of the second. *)
Theorem deleteActivities_forwards_append (ids1 ids2 : list string) :
  parse_activity_ids (ids1 ++ ids2)
  = parse_activity_ids ids1 ++ parse_activity_ids ids2.
Proof.
  rewrite !parse_activity_ids_omap. apply omap_app.
Qed.

(** X13: [deleteUrls] on two lists put end to end forwards the URLs of
    the first followed by the URLs of the second, and a missing list
    (a null [urls]) is dereferenced: the run faults before any call. *)
Theorem deleteUrls_forwards_append (urls1 urls2 : list string) w :
  DeleteUrls_RunImpl (Some (Some (urls1 ++ urls2))) w
  = Some (true, record_call
                  (RemoveURLs (make_gurls urls1 [] ++ make_gurls urls2 [])) w)
  /\ DeleteUrls_RunImpl (Some None) w = None.
Proof.
  split; [|reflexivity].
  unfold DeleteUrls_RunImpl. unfold_M'.
  rewrite !make_gurls_app. simpl. by rewrite fmap_app.
Qed.

End MoreProperties.
(** * Properties of the about:nacl page *)

Section NaClProperties.

Import NaCl.

Context `{services : Services}.

Implicit Types (list : ListValue) (handler : NaClDomHandler).

Lemma isPluginEnabled_in_range (i : nat) (info : WebPluginInfo) :
  GetPluginInfoArray !! i = Some info ->
  isPluginEnabled i = Some (IsPluginEnabled info).
Proof.
  intros Hi. unfold isPluginEnabled.
  destruct GetPluginInfoArray as [|first rest] eqn:Harray; [done|].
  rewrite bool_decide_eq_false_2 by done. by rewrite Hi.
Qed.

Lemma isPluginEnabled_first :
  isPluginEnabled 0 = Some first_plugin_enabled.
Proof.
  unfold isPluginEnabled, first_plugin_enabled.
  destruct GetPluginInfoArray as [|first rest]; [reflexivity|].
  by rewrite bool_decide_eq_false_2.
Qed.

Lemma add_unused_plugin_entry list (i : nat) (info : WebPluginInfo) :
  i <> 0%nat ->
  GetPluginInfoArray !! i = Some info ->
  add_unused_plugin GetPluginInfoArray list i
  = Some (list ++ [plugin_entry i info]).
Proof.
  intros Hi Hinfo. unfold add_unused_plugin, plugin_entry, AddPair.
  rewrite Hinfo. simpl. rewrite (isPluginEnabled_in_range i info Hinfo). simpl.
  rewrite bool_decide_eq_false_2 by exact Hi.
  by destruct (IsPluginEnabled info).
Qed.

Lemma foldl_option_step {A} (f : A -> nat -> option A) (x : A) (i : nat)
    (l : Datatypes.list nat) :
  foldl (fun acc i => acc ≫= fun a => f a i) (Some x) (i :: l)
  = foldl (fun acc i => acc ≫= fun a => f a i) (f x i) l.
Proof. reflexivity. Qed.

Lemma unused_plugins_loop (done rest : Datatypes.list WebPluginInfo) list :
  done <> [] ->
  GetPluginInfoArray = done ++ rest ->
  foldl (fun acc i => acc ≫= fun list => add_unused_plugin GetPluginInfoArray list i)
    (Some list) (seq (length done) (length rest))
  = Some (list ++ imap (fun j => plugin_entry (length done + j)) rest).
Proof.
  intros Hdone. revert done list Hdone.
  induction rest as [|info rest IH]; intros done list Hdone Harray.
  - simpl. by rewrite app_nil_r.
  - change (length (info :: rest)) with (S (length rest)).
    rewrite <- cons_seq, foldl_option_step.
    rewrite (add_unused_plugin_entry list (length done) info);
      [|by destruct done
       |rewrite Harray, lookup_app_r, Nat.sub_diag by lia; reflexivity].
    replace (S (length done)) with (length (done ++ [info]))
      by (rewrite length_app; simpl; lia).
    etrans.
    { apply (IH (done ++ [info])); [by destruct done|].
      by rewrite <- app_assoc. }
    rewrite length_app, <- app_assoc. simpl.
    rewrite Nat.add_0_r. do 3 f_equal.
    apply imap_ext. intros j x _. simpl. f_equal. lia.
Qed.

Lemma AddPluginList_closed list :
  AddPluginList list
  = Some (list
          ++ match GetPluginInfoArray with
             | [] => [ {| key := "NaCl plugin"; value := "Disabled" |} ]
             | infos => imap plugin_entry infos
             end
          ++ [line_break]).
Proof.
  unfold AddPluginList.
  destruct GetPluginInfoArray as [|first rest] eqn:Harray.
  - simpl. unfold AddLineBreak, AddPair. by rewrite <- app_assoc.
  - rewrite bool_decide_eq_false_2 by done.
    cbn [lookup list_lookup mbind option_bind].
    rewrite (isPluginEnabled_in_range 0 first) by (by rewrite Harray).
    cbn [mbind option_bind length].
    replace (S (length rest) - 1)%nat with (length rest) by lia.
    pose proof (unused_plugins_loop [first] rest) as Hloop.
    rewrite Harray in Hloop. cbn [length] in Hloop.
    rewrite Hloop by done.
    cbn [mbind option_bind]. unfold AddLineBreak, AddPair.
    rewrite <- !app_assoc. do 2 f_equal.
    rewrite imap_cons. simpl. f_equal.
    unfold plugin_entry. simpl. by destruct (IsPluginEnabled first).
Qed.

(** X14: [AddPluginList] never reads past the end of the plugin array,
    and what it appends is known: with no plugin the one entry
    [Disabled]; otherwise one entry for every plugin, in the order of the
    array, every plugin but the first marked [(not used)] and every plugin
    that the profile disables marked so; then the line break. *)
Theorem AddPluginList_entries list :
  AddPluginList list
  = Some (list
          ++ match GetPluginInfoArray with
             | [] => [ {| key := "NaCl plugin"; value := "Disabled" |} ]
             | infos => imap plugin_entry infos
             end
          ++ [line_break]).
Proof. apply AddPluginList_closed. Qed.

Lemma AddPnaclInfo_entries (pnacl_path_exists : bool) list :
  AddPnaclInfo pnacl_path_exists list
  = Some (list
          ++ [ {| key := "Portable Native Client (PNaCl)";
                  value := pnacl_status first_plugin_enabled
                             (HasSwitch kDisablePnacl) |} ]
          ++ translator_pairs
               (fst PathService_Get
                && negb (FilePath_empty (snd PathService_Get))
                && pnacl_path_exists)
          ++ [line_break]).
Proof.
  unfold AddPnaclInfo. rewrite isPluginEnabled_first.
  cbn [mbind option_bind]. unfold translator_pairs, pnacl_status.
  destruct PathService_Get as [got_path pnacl_path]. cbn [fst snd].
  unfold AddLineBreak, AddPair.
  destruct got_path, (FilePath_empty pnacl_path), pnacl_path_exists;
    cbn [negb orb andb]; rewrite <- ?app_assoc; reflexivity.
Qed.

Lemma AddNaClInfo_entries list :
  AddNaClInfo list
  = Some (list
          ++ [ {| key := "Native Client (non-portable, outside web store)";
                  value := if first_plugin_enabled && HasSwitch kEnableNaCl
                           then "Enabled by flag '--enable-nacl'"
                           else "Disabled" |};
               line_break ]).
Proof.
  unfold AddNaClInfo. rewrite isPluginEnabled_first.
  cbn [mbind option_bind]. unfold AddLineBreak, AddPair.
  by rewrite <- app_assoc.
Qed.

(** X15: what [AddPnaclInfo] says about the translator when the member
    [pnacl_path_exists_] holds what [ValidatePnaclPath] finds: the three
    tests of [AddPnaclInfo] then come to the one test of
    [ValidatePnaclPath], the page shows the path and the version when it
    is true and [Not installed] when it is false. The status before it is
    [Disabled in profile prefs] whenever the first plugin is not enabled,
    the flag being looked at only otherwise. *)
Theorem AddPnaclInfo_agrees_with_validation list :
  AddPnaclInfo ValidatePnaclPath list
  = Some (list
          ++ [ {| key := "Portable Native Client (PNaCl)";
                  value := pnacl_status first_plugin_enabled
                             (HasSwitch kDisablePnacl) |} ]
          ++ translator_pairs ValidatePnaclPath
          ++ [line_break]).
Proof.
  rewrite AddPnaclInfo_entries. do 3 f_equal.
  unfold ValidatePnaclPath.
  destruct PathService_Get as [got_path pnacl_path]. cbn [fst snd].
  by destruct got_path, (FilePath_empty pnacl_path), (PathExists pnacl_path).
Qed.

(** X16: in a browser without any NaCl plugin the three parts of the page
    agree, whatever the command line says: the plugin list has the single
    entry [Disabled], PNaCl is reported as [Disabled in profile prefs] and
    NaCl as [Disabled]. *)
Theorem no_plugin_all_disabled list (pnacl_path_exists : bool) :
  GetPluginInfoArray = [] ->
  AddPluginList list
  = Some (list ++ [ {| key := "NaCl plugin"; value := "Disabled" |};
                    line_break ])
  /\ (exists translator,
        AddPnaclInfo pnacl_path_exists list
        = Some (list
                ++ [ {| key := "Portable Native Client (PNaCl)";
                        value := "Disabled in profile prefs" |} ]
                ++ translator ++ [line_break]))
  /\ AddNaClInfo list
     = Some (list
             ++ [ {| key := "Native Client (non-portable, outside web store)";
                     value := "Disabled" |};
                  line_break ]).
Proof.
  intros Hnone.
  assert (Hfirst : first_plugin_enabled = false)
    by (unfold first_plugin_enabled; by rewrite Hnone).
  split; [|split].
  - rewrite AddPluginList_closed, Hnone. reflexivity.
  - eexists. rewrite AddPnaclInfo_entries, Hfirst. reflexivity.
  - rewrite AddNaClInfo_entries, Hfirst. reflexivity.
Qed.

Lemma page_information_entries (is_valid : bool) :
  page_information is_valid
  = Some [("naclInfo"%string,
           AddOperatingSystemInfo []
           ++ match GetPluginInfoArray with
              | [] => [ {| key := "NaCl plugin"; value := "Disabled" |} ]
              | infos => imap plugin_entry infos
              end
           ++ [line_break]
           ++ [ {| key := "Portable Native Client (PNaCl)";
                   value := pnacl_status first_plugin_enabled
                              (HasSwitch kDisablePnacl) |} ]
           ++ translator_pairs
                (fst PathService_Get
                 && negb (FilePath_empty (snd PathService_Get))
                 && is_valid)
           ++ [line_break]
           ++ [ {| key := "Native Client (non-portable, outside web store)";
                   value := if first_plugin_enabled && HasSwitch kEnableNaCl
                            then "Enabled by flag '--enable-nacl'"
                            else "Disabled" |};
                line_break ])].
Proof.
  unfold page_information, PopulatePageInformation. cbn [pnacl_path_validated_ negb pnacl_path_exists_].
  rewrite AddPluginList_closed. cbn [mbind option_bind].
  rewrite AddPnaclInfo_entries. cbn [mbind option_bind].
  rewrite AddNaClInfo_entries. cbn [mbind option_bind].
  by rewrite <- !app_assoc.
Qed.

Lemma PopulatePageInformation_validated handler :
  pnacl_path_validated_ handler = true ->
  PopulatePageInformation handler
  = page_information (pnacl_path_exists_ handler).
Proof.
  intros Hvalid. unfold page_information, PopulatePageInformation.
  rewrite Hvalid. reflexivity.
Qed.

(** X17: with the path validated, [PopulatePageInformation] always
    succeeds and fills the one key [naclInfo]; the list under it ends with
    a line break and its length is known from the number of plugins and
    from whether the translator is shown as installed: three pairs for the
    version and the system, one for each plugin (one if there is none) and
    a line break, the PNaCl status with one or two translator pairs and a
    line break, and two pairs for NaCl. *)
Theorem PopulatePageInformation_shape handler :
  pnacl_path_validated_ handler = true ->
  exists pairs,
    PopulatePageInformation handler = Some [("naclInfo"%string, pairs)]
    /\ list.last pairs = Some line_break
    /\ length pairs
       = (3 + (Nat.max 1 (length GetPluginInfoArray) + 1)
          + (if fst PathService_Get
                && negb (FilePath_empty (snd PathService_Get))
                && pnacl_path_exists_ handler
             then 4 else 3)
          + 2)%nat.
Proof.
  intros Hvalid. rewrite (PopulatePageInformation_validated _ Hvalid).
  rewrite page_information_entries. eexists. split; [reflexivity|].
  split.
  - rewrite !app_assoc. rewrite last_app. reflexivity.
  - rewrite !length_app. unfold AddOperatingSystemInfo, AddLineBreak, AddPair.
    rewrite !length_app. cbn [length].
    assert (Hplugins :
      length (match GetPluginInfoArray with
              | [] => [ {| key := "NaCl plugin"; value := "Disabled" |} ]
              | infos => imap plugin_entry infos
              end) = Nat.max 1 (length GetPluginInfoArray)).
    { destruct GetPluginInfoArray as [|first rest]; [reflexivity|].
      rewrite length_imap. simpl. lia. }
    rewrite Hplugins. unfold translator_pairs.
    destruct (fst PathService_Get
              && negb (FilePath_empty (snd PathService_Get))
              && pnacl_path_exists_ handler); simpl; lia.
Qed.

(** ** The message handler *)

Lemma MaybeRespondToPage_cases handler :
  MaybeRespondToPage handler
  = if negb (page_has_requested_data_ handler) || negb (has_plugin_info_ handler)
    then Some []
    else if negb (pnacl_path_validated_ handler)
    then Some [PostValidatePnaclPath]
    else (fun naclInfo => [CallJavascriptFunction "nacl.returnNaClInfo" naclInfo])
           <$> page_information (pnacl_path_exists_ handler).
Proof.
  unfold MaybeRespondToPage.
  destruct (negb (page_has_requested_data_ handler)
            || negb (has_plugin_info_ handler)); [reflexivity|].
  destruct (pnacl_path_validated_ handler) eqn:Hvalid; [|reflexivity].
  rewrite (PopulatePageInformation_validated _ Hvalid).
  by destruct (page_information (pnacl_path_exists_ handler)).
Qed.

Lemma MaybeRespondToPage_total handler : is_Some (MaybeRespondToPage handler).
Proof.
  rewrite MaybeRespondToPage_cases, page_information_entries.
  destruct (negb (page_has_requested_data_ handler)
            || negb (has_plugin_info_ handler)); [eauto|].
  destruct (negb (pnacl_path_validated_ handler)); simpl; eauto.
Qed.

Lemma deliver_total handler (s : Stimulus) : is_Some (deliver handler s).
Proof.
  destruct s as [| |is_valid]; simpl;
    unfold HandleRequestNaClInfo, OnGotPlugins, DidValidatePnaclPath;
    match goal with
    | |- context [MaybeRespondToPage ?h] =>
        destruct (MaybeRespondToPage_total h) as [effects ->]
    end; simpl; eauto.
Qed.

(** X18: the handler never fails, whatever reaches it and in whatever
    order: [PopulatePageInformation] is only reached with
    [pnacl_path_validated_] set, so that its [DCHECK] holds, and no
    helper reads past the end of the plugin array. *)
Theorem handler_never_fails handler (stimuli : Datatypes.list Stimulus) :
  is_Some (deliver_all handler stimuli).
Proof.
  revert handler. induction stimuli as [|s rest IH]; intros handler.
  - simpl. eauto.
  - cbn [deliver_all].
    destruct (deliver_total handler s) as [[handler' effects] ->].
    cbn [mbind option_bind].
    destruct (IH handler') as [[handler'' more] ->].
    simpl. eauto.
Qed.

(** X19: the message [requestNaClInfo] is never answered at once. It
    marks the page as waiting and forgets the last validation, so all
    [HandleRequestNaClInfo] can do is post a new validation, which it does
    exactly when the plugin list has arrived. *)
Theorem HandleRequestNaClInfo_revalidates handler :
  HandleRequestNaClInfo handler
  = Some ({| page_has_requested_data_ := true;
             has_plugin_info_ := has_plugin_info_ handler;
             pnacl_path_validated_ := false;
             pnacl_path_exists_ := pnacl_path_exists_ handler |},
          if has_plugin_info_ handler then [PostValidatePnaclPath] else []).
Proof.
  unfold HandleRequestNaClInfo. rewrite MaybeRespondToPage_cases. simpl.
  by destruct (has_plugin_info_ handler).
Qed.

Lemma MaybeRespondToPage_response handler effects :
  MaybeRespondToPage handler = Some effects ->
  Exists (fun e => is_response e = true) effects ->
  page_has_requested_data_ handler = true
  /\ has_plugin_info_ handler = true
  /\ pnacl_path_validated_ handler = true.
Proof.
  rewrite MaybeRespondToPage_cases.
  destruct (page_has_requested_data_ handler), (has_plugin_info_ handler),
    (pnacl_path_validated_ handler); simpl;
    try (intros [= <-] Hex; by (apply Exists_nil in Hex
                                || (apply Exists_cons in Hex as [Hex|Hex];
                                    [discriminate | by apply Exists_nil in Hex]))).
  done.
Qed.

Lemma deliver_flags handler (s : Stimulus) handler' effects :
  deliver handler s = Some (handler', effects) ->
  (page_has_requested_data_ handler' = true ->
     page_has_requested_data_ handler = true \/ s = RequestNaClInfo)
  /\ (has_plugin_info_ handler' = true ->
       has_plugin_info_ handler = true \/ s = GotPlugins)
  /\ (pnacl_path_validated_ handler' = true ->
       pnacl_path_validated_ handler = true \/ is_reply s = true)
  /\ (Exists (fun e => is_response e = true) effects ->
       page_has_requested_data_ handler' = true
       /\ has_plugin_info_ handler' = true
       /\ pnacl_path_validated_ handler' = true).
Proof.
  destruct s as [| |is_valid]; simpl;
    unfold HandleRequestNaClInfo, OnGotPlugins, DidValidatePnaclPath;
    match goal with
    | |- context [MaybeRespondToPage ?h] =>
        destruct (MaybeRespondToPage h) as [effects'|] eqn:Hrespond; [|done]
    end; simpl; intros [= <- <-]; simpl;
    (split; [|split; [|split]]); auto;
    intros Hex; apply (MaybeRespondToPage_response _ _ Hrespond Hex).
Qed.

Lemma deliver_all_cons handler (s : Stimulus) rest handler'' effects :
  deliver_all handler (s :: rest) = Some (handler'', effects) ->
  exists handler' first more,
    deliver handler s = Some (handler', first)
    /\ deliver_all handler' rest = Some (handler'', more)
    /\ effects = first ++ more.
Proof.
  cbn [deliver_all].
  destruct (deliver handler s) as [[handler' first]|]; [|done].
  cbn [mbind option_bind].
  destruct (deliver_all handler' rest) as [[h more]|] eqn:Hrest; [|done].
  simpl. intros [= <- <-]. exists handler', first, more. done.
Qed.

Lemma no_response_unless_ready handler (stimuli : Datatypes.list Stimulus)
    handler' effects :
  deliver_all handler stimuli = Some (handler', effects) ->
  Exists (fun e => is_response e = true) effects ->
  (page_has_requested_data_ handler = true \/ RequestNaClInfo ∈ stimuli)
  /\ (has_plugin_info_ handler = true \/ GotPlugins ∈ stimuli)
  /\ (pnacl_path_validated_ handler = true
      \/ Exists (fun s => is_reply s = true) stimuli).
Proof.
  revert handler effects.
  induction stimuli as [|s rest IH]; intros handler effects Hrun Hex.
  - injection Hrun as <- <-. by apply Exists_nil in Hex.
  - apply deliver_all_cons in Hrun as (h1 & first & more & Hs & Hrest & ->).
    destruct (deliver_flags _ _ _ _ Hs) as (Hreq & Hplug & Hval & Hresp).
    assert (Hlater :
      (page_has_requested_data_ h1 = true \/ RequestNaClInfo ∈ rest)
      /\ (has_plugin_info_ h1 = true \/ GotPlugins ∈ rest)
      /\ (pnacl_path_validated_ h1 = true
          \/ Exists (fun s => is_reply s = true) rest)).
    { apply Exists_app in Hex as [Hex|Hex].
      - destruct (Hresp Hex) as (? & ? & ?). auto.
      - by apply (IH h1 more). }
    destruct Hlater as (H1 & H2 & H3). split; [|split].
    + destruct H1 as [H1|H1]; [|right; by apply list_elem_of_further].
      destruct (Hreq H1) as [?| ->]; [by left | right; apply list_elem_of_here].
    + destruct H2 as [H2|H2]; [|right; by apply list_elem_of_further].
      destruct (Hplug H2) as [?| ->]; [by left | right; apply list_elem_of_here].
    + destruct H3 as [H3|H3]; [|right; by apply Exists_cons_tl].
      destruct (Hval H3) as [?|?]; [by left | right; by apply Exists_cons_hd].
Qed.

(** X20: the page is never answered before everything is there. If a
    new handler has called [nacl.returnNaClInfo] then the page has asked,
    the plugin list has arrived and a validation has been replied to. *)
Theorem no_response_before_ready (stimuli : Datatypes.list Stimulus)
    handler effects :
  deliver_all (fst NaClDomHandler_new) stimuli = Some (handler, effects) ->
  Exists (fun e => is_response e = true) effects ->
  RequestNaClInfo ∈ stimuli
  /\ GotPlugins ∈ stimuli
  /\ Exists (fun s => is_reply s = true) stimuli.
Proof.
  intros Hrun Hex.
  destruct (no_response_unless_ready _ _ _ _ Hrun Hex)
    as ([?|?] & [?|?] & [?|?]); done.
Qed.

Lemma responses_follow_replies handler (pending : nat)
    (stimuli : Datatypes.list Stimulus) handler' effects :
  ((0 < pending)%nat ->
     page_has_requested_data_ handler = true
     /\ has_plugin_info_ handler = true) ->
  (has_plugin_info_ handler = false -> pnacl_path_validated_ handler = false) ->
  browser_behaves handler pending stimuli ->
  deliver_all handler stimuli = Some (handler', effects) ->
  filter (fun e => is_response e = true) effects = omap reply_response stimuli.
Proof.
  revert handler pending effects.
  induction stimuli as [|s rest IH];
    intros handler pending effects Hpending Hplugins Hbehaves Hrun.
  - by injection Hrun as <- <-.
  - apply deliver_all_cons in Hrun as (h1 & first & more & Hs & Hrest & ->).
    cbn [browser_behaves] in Hbehaves. rewrite Hs in Hbehaves.
    destruct Hbehaves as [Hallowed Hbehaves].
    rewrite list.filter_app. cbn [omap list_omap].
    destruct handler as [requested plugins validated path_exists].
    destruct s as [| |is_valid]; simpl in Hs, Hallowed, Hplugins, Hpending;
      unfold HandleRequestNaClInfo, OnGotPlugins, DidValidatePnaclPath in Hs;
      rewrite MaybeRespondToPage_cases in Hs; simpl in Hs.
    + destruct plugins; simpl in Hs; injection Hs as <- <-; simpl;
        (eapply IH; [| |exact Hbehaves|exact Hrest]); simpl in *;
        intros; try done; destruct Hpending; [lia|done..].
    + subst plugins. rewrite (Hplugins eq_refl) in Hs.
      destruct requested; simpl in Hs; injection Hs as <- <-; simpl;
        (eapply IH; [| |exact Hbehaves|exact Hrest]); simpl in *;
        intros; try done; destruct Hpending; [lia|done..].
    + destruct (Hpending Hallowed) as [-> ->]. simpl in Hs.
      destruct (page_information is_valid) as [info|] eqn:Hinfo;
        [|by rewrite page_information_entries in Hinfo].
      simpl in Hs. injection Hs as <- <-. simpl.
      rewrite Hinfo. simpl. f_equal.
      (eapply IH; [| |exact Hbehaves|exact Hrest]); simpl; intros; done.
Qed.

(** X21: when the browser behaves (the plugin list arrives once, and the
    blocking pool replies once to each validation that was posted), the
    page gets exactly one answer for every reply, in the order of the
    replies, each built with what that validation found; a page request
    and the arrival of the plugin list never answer by themselves. *)
Theorem one_response_per_reply (stimuli : Datatypes.list Stimulus)
    handler effects :
  browser_behaves (fst NaClDomHandler_new) 0 stimuli ->
  deliver_all (fst NaClDomHandler_new) stimuli = Some (handler, effects) ->
  filter (fun e => is_response e = true) effects = omap reply_response stimuli
  /\ length (filter (fun e => is_response e = true) effects)
     = length (filter (fun s => is_reply s = true) stimuli).
Proof.
  intros Hbehaves Hrun.
  assert (Hresponses :
    filter (fun e => is_response e = true) effects = omap reply_response stimuli).
  { (eapply responses_follow_replies; [| |exact Hbehaves|exact Hrun]);
      simpl; intros; [lia|done]. }
  split; [exact Hresponses|]. rewrite Hresponses. clear.
  induction stimuli as [|s rest IH]; [reflexivity|].
  cbn [omap list_omap]. rewrite filter_cons.
  destruct s as [| |is_valid]; simpl; try exact IH.
  rewrite page_information_entries. simpl. by rewrite IH.
Qed.

End NaClProperties.
(** * Properties of the input method initializer *)

Section IMEProperties.

Import IME.

Implicit Types (b : Build) (st : State).

Lemma new_address_fresh st :
  Some (new_address st) <> instance st /\ new_address st ∉ fakes st.
Proof.
  destruct st as [g i f c]. unfold new_address. cbn [instance fakes
    g_linux_input_method_context_factory].
  split.
  - destruct i as [fi|]; [|done]. intros [= Heq].
    assert (Hin : fi ∈ option_list g ++ option_list (Some fi) ++ f).
    { rewrite !elem_of_app. right. left. apply list_elem_of_here. }
    apply max_list_elem_of_le in Hin. simpl in *. lia.
  - intros Hin.
    assert (Hin' : S (max_list (option_list g ++ option_list i ++ f))
                   ∈ option_list g ++ option_list i ++ f).
    { rewrite !elem_of_app. right. right. exact Hin. }
    apply max_list_elem_of_le in Hin'. lia.
Qed.

Lemma filter_remove_fresh (a : nat) (l : list nat) :
  a ∉ l -> filter (fun x => x <> a) (a :: l) = l.
Proof.
  intros Hfresh. rewrite filter_cons, decide_False by (intros H; by apply H).
  induction l as [|x l IH]; [reflexivity|].
  apply not_elem_of_cons in Hfresh as [Hne Hfresh].
  rewrite filter_cons, decide_True by congruence. f_equal. by apply IH.
Qed.

(** X22: on Linux with Aura, when no context factory is installed,
    [InitializeInputMethodForTesting] creates a fake factory and installs
    it, and [ShutdownInputMethodForTesting] then undoes all of it: no
    factory is installed, the global is null again and the fake factory is
    deleted. Neither [CHECK] fails. *)
Theorem testing_round_trip (tsf : bool) b st :
  aura_linux b ->
  g_linux_input_method_context_factory st = None ->
  instance st = None ->
  exists st1 st2 fake,
    InitializeInputMethodForTesting tsf b st = Some st1
    /\ instance st1 = Some fake
    /\ g_linux_input_method_context_factory st1 = Some fake
    /\ fakes st1 = fake :: fakes st
    /\ ShutdownInputMethodForTesting tsf b st1 = Some st2
    /\ instance st2 = None
    /\ g_linux_input_method_context_factory st2 = None
    /\ fakes st2 = fakes st.
Proof.
  intros (Hcros & Haura & Hlinux) Hg Hinst.
  destruct (new_address_fresh st) as [_ Hfresh].
  unfold InitializeInputMethodForTesting, ShutdownInputMethodForTesting.
  rewrite Hcros, Haura, Hlinux, Hg. simpl.
  unfold check_factory. simpl. rewrite Hinst. simpl.
  eexists. eexists. exists (new_address st).
  split; [reflexivity|]. simpl. rewrite orb_true_r. simpl.
  rewrite bool_decide_eq_true_2 by reflexivity. simpl.
  do 3 (split; [reflexivity|]). split; [reflexivity|]. simpl.
  do 2 (split; [reflexivity|]).
  by apply filter_remove_fresh.
Qed.

Lemma check_factory_false st :
  check_factory st = false
  <-> exists factory,
        instance st = Some factory
        /\ g_linux_input_method_context_factory st <> Some factory.
Proof.
  unfold check_factory. destruct (instance st) as [f|].
  - rewrite bool_decide_eq_false. split.
    + intros Hne. exists f. split; [done|]. congruence.
    + intros (f' & [= <-] & Hne). congruence.
  - split; [done|]. by intros (f' & [=] & _).
Qed.

Lemma check_factory_record (c : BridgeCall) st :
  check_factory (record c st) = check_factory st.
Proof. reflexivity. Qed.

Lemma check_factory_after_new st :
  g_linux_input_method_context_factory st = None ->
  check_factory
    {| g_linux_input_method_context_factory := Some (new_address st);
       instance := instance st;
       fakes := new_address st :: fakes st;
       calls := calls st |}
  = check_factory st.
Proof.
  intros Hg. destruct (new_address_fresh st) as [Hfresh _].
  unfold check_factory. simpl. rewrite Hg.
  destruct (instance st) as [f|]; [|done].
  rewrite !bool_decide_eq_false_2; [done..|congruence].
Qed.

(** X23: on Linux with Aura the two testing functions stop at their
    [CHECK] in one case only: a context factory is installed that is not
    the one this file created. *)
Theorem testing_check_fails_iff (tsf : bool) b st :
  aura_linux b ->
  (InitializeInputMethodForTesting tsf b st = None
   <-> exists factory,
         instance st = Some factory
         /\ g_linux_input_method_context_factory st <> Some factory)
  /\ (ShutdownInputMethodForTesting tsf b st = None
      <-> exists factory,
            instance st = Some factory
            /\ g_linux_input_method_context_factory st <> Some factory).
Proof.
  intros (Hcros & Haura & Hlinux).
  rewrite <- check_factory_false.
  unfold InitializeInputMethodForTesting, ShutdownInputMethodForTesting.
  rewrite Hcros, Haura, Hlinux. cbn [andb orb].
  split.
  - destruct (g_linux_input_method_context_factory st) as [g|] eqn:Hg.
    + destruct (check_factory st); simpl; split; done.
    + rewrite (check_factory_after_new st Hg).
      destruct (check_factory st); simpl; split; done.
  - rewrite orb_true_r, check_factory_record.
    destruct (check_factory st); simpl; split; done.
Qed.

(** X24: on Linux with Aura, [InitializeInputMethodForTesting] can be
    called again: a second call that follows a first one changes nothing
    (no second fake factory is created) and does not fail. *)
Theorem testing_initialize_idempotent (tsf : bool) b st st1 :
  aura_linux b ->
  InitializeInputMethodForTesting tsf b st = Some st1 ->
  InitializeInputMethodForTesting tsf b st1 = Some st1.
Proof.
  intros (Hcros & Haura & Hlinux).
  unfold InitializeInputMethodForTesting.
  rewrite Hcros, Haura, Hlinux. simpl. unfold check_factory.
  destruct (g_linux_input_method_context_factory st) as [g|] eqn:Hg; simpl.
  - destruct (instance st) as [f|]; simpl.
    + case_bool_decide as Hsame; simpl; [|done].
      intros [= <-]. simpl. rewrite Hg. simpl.
      by rewrite bool_decide_eq_true_2.
    + intros [= <-]. simpl. rewrite Hg. simpl.
      by rewrite bool_decide_eq_true_2.
  - destruct (instance st) as [f|]; simpl.
    + case_bool_decide as Hsame; simpl; [|done].
      intros [= <-]. simpl. by rewrite bool_decide_eq_true_2.
    + intros [= <-]. simpl. by rewrite bool_decide_eq_true_2.
Qed.

Lemma added_calls_two (c1 c2 : BridgeCall) st :
  drop (length (calls st)) (calls (record c2 (record c1 st))) = [c1; c2].
Proof. simpl. rewrite <- app_assoc. apply drop_app_length. Qed.

Lemma added_calls_one (c : BridgeCall) st :
  drop (length (calls st)) (calls (record c st)) = [c].
Proof. simpl. apply drop_app_length. Qed.

Lemma added_calls_three (c1 c2 c3 : BridgeCall) st :
  drop (length (calls st)) (calls (record c3 (record c2 (record c1 st))))
  = [c1; c2; c3].
Proof. simpl. rewrite <- !app_assoc. apply drop_app_length. Qed.

Lemma added_calls_four (c1 c2 c3 c4 : BridgeCall) st :
  drop (length (calls st))
    (calls (record c4 (record c3 (record c2 (record c1 st)))))
  = [c1; c2; c3; c4].
Proof. simpl. rewrite <- !app_assoc. apply drop_app_length. Qed.

(** X25: in every build that is not for Windows and Linux at once, and
    whatever [IsTSFAwareRequired] says, what the initializers start the
    shutdown functions stop: [ShutdownInputMethod] calls
    [IBusBridge::Shutdown] exactly when [InitializeInputMethod] calls
    [IBusBridge::Initialize], and likewise for the TSF bridge; the same
    holds of the testing pair, which moreover calls [CoUninitialize]
    exactly when it called [CoInitialize]. *)
Theorem shutdown_mirrors_initialize (tsf : bool) b st :
  OS_WIN b && OS_LINUX b = false ->
  let started := added_calls (InitializeInputMethod tsf b) st in
  let stopped := added_calls (ShutdownInputMethod tsf b) st in
  let started_t := added_calls (InitializeInputMethodForTesting tsf b) st in
  let stopped_t := added_calls (ShutdownInputMethodForTesting tsf b) st in
  (IBusBridge_Initialize ∈ started <-> IBusBridge_Shutdown ∈ stopped)
  /\ (TSFBridge_Initialize ∈ started <-> TSFBridge_Shutdown ∈ stopped)
  /\ (IBusBridge_Initialize ∈ started_t <-> IBusBridge_Shutdown ∈ stopped_t)
  /\ (TSFBridge_Initialize ∈ started_t <-> TSFBridge_Shutdown ∈ stopped_t)
  /\ (CoInitialize ∈ started_t <-> CoUninitialize ∈ stopped_t).
Proof.
  assert (Hnone : drop (length (calls st)) (calls st) = [])
    by apply drop_all.
  destruct b as [cros aura linux win views].
  unfold added_calls, InitializeInputMethod, ShutdownInputMethod,
    InitializeInputMethodForTesting, ShutdownInputMethodForTesting.
  cbn [OS_CHROMEOS USE_AURA OS_LINUX OS_WIN TOOLKIT_VIEWS].
  intros Hbuild.
  destruct cros, aura, linux, win, views, tsf; cbn [andb orb negb];
    try discriminate Hbuild;
    repeat match goal with
    | |- context [if negb (check_factory ?s) then _ else _] =>
        destruct (check_factory s); cbn [negb]
    | |- context [match g_linux_input_method_context_factory ?s with _ => _ end] =>
        destruct (g_linux_input_method_context_factory s)
    end;
    rewrite ?added_calls_four, ?added_calls_three, ?added_calls_two,
      ?added_calls_one, ?Hnone;
    cbn [calls]; rewrite ?Hnone, ?added_calls_one;
    repeat split; intros Hin;
    repeat (apply elem_of_cons in Hin as [Hin|Hin]; try discriminate Hin);
    try (by apply elem_of_nil in Hin);
    repeat (first [apply list_elem_of_here | apply list_elem_of_further]).
Qed.

End IMEProperties.
(** * The further properties on concrete inputs *)

Section MoreConcrete.

Local Existing Instance sample_host.

Local Open Scope string_scope.

Lemma lifecycle_trace_witness :
  is_Some (event_router browser_profile)
  /\ exists w,
       lifecycle 1%nat 7%nat [OpOnExtensionActivity sample_action; OpShutdown]
         browser_profile = Some (sample_api, w)
       /\ calls_since browser_profile w
          = [RegisterObserver 1%nat kEventName; AddObserver 1%nat;
             BroadcastEvent (spec_event 7%nat sample_action);
             UnregisterObserver 1%nat; RemoveObserver 1%nat].
Proof.
  assert (H1 : is_Some (event_router browser_profile)) by (simpl; eauto).
  split; [exact H1|]. eexists. split; [reflexivity|].
  apply (lifecycle_trace 1%nat 7%nat
           [OpOnExtensionActivity sample_action; OpShutdown]
           browser_profile sample_api _ H1 eq_refl).
Defined.

Lemma broadcasts_follow_deliveries_witness :
  is_Some (event_router browser_profile)
  /\ exists w,
       lifecycle 1%nat 7%nat
         [OpOnExtensionActivity sample_action; OpOnListenerAdded;
          OpOnExtensionActivity sample_action]
         browser_profile = Some (sample_api, w)
       /\ filter (fun c => is_broadcast c = true) (calls_since browser_profile w)
          = [BroadcastEvent (spec_event 7%nat sample_action);
             BroadcastEvent (spec_event 7%nat sample_action)].
Proof.
  assert (H1 : is_Some (event_router browser_profile)) by (simpl; eauto).
  split; [exact H1|]. eexists. split; [reflexivity|].
  apply (broadcasts_follow_deliveries 1%nat 7%nat
           [OpOnExtensionActivity sample_action; OpOnListenerAdded;
            OpOnExtensionActivity sample_action]
           browser_profile sample_api _ H1 eq_refl).
Defined.

Lemma Shutdown_twice_repeats_calls_witness :
  initialized_ sample_api = true
  /\ activity_log_ sample_api = Some 7%nat
  /\ is_Some (event_router constructed_world)
  /\ exists w1 w2,
       Shutdown sample_api constructed_world = Some (tt, w1)
       /\ Shutdown sample_api w1 = Some (tt, w2)
       /\ calls_since w1 w2 = [UnregisterObserver 1%nat; RemoveObserver 1%nat].
Proof.
  assert (H3 : is_Some (event_router constructed_world)) by (simpl; eauto).
  split; [reflexivity|]. split; [reflexivity|]. split; [exact H3|].
  destruct (Shutdown_twice_repeats_calls sample_api constructed_world 7%nat
              eq_refl eq_refl H3)
    as (w1 & w2 & Hfirst & Hsecond & _ & Hcalls & _).
  exists w1, w2. split; [exact Hfirst|]. split; [exact Hsecond|]. exact Hcalls.
Defined.

Lemma lifecycle_keeps_other_observers_witness :
  2%nat <> 1%nat
  /\ lifecycle 1%nat 7%nat [OpShutdown] browser_profile
     = Some (sample_api, shut_world)
  /\ router_registrations 2%nat shut_world
     = router_registrations 2%nat browser_profile
  /\ log_registrations 2%nat shut_world
     = log_registrations 2%nat browser_profile.
Proof.
  assert (H1 : 2%nat <> 1%nat) by lia.
  assert (H2 : lifecycle 1%nat 7%nat [OpShutdown] browser_profile
               = Some (sample_api, shut_world)) by reflexivity.
  split; [exact H1|]. split; [exact H2|].
  apply (lifecycle_keeps_other_observers 1%nat 7%nat [OpShutdown]
           browser_profile sample_api shut_world 2%nat H1 H2).
Defined.

Lemma RunImpl_one_store_request_witness :
  RunImpl (Run_deleteActivities (Some ["10"; "x"])) test_profile
  = Some (true, record_call (RemoveActions [10]) test_profile)
  /\ event_router (record_call (RemoveActions [10]) test_profile)
     = event_router test_profile
  /\ exists c,
       calls_since test_profile (record_call (RemoveActions [10]) test_profile)
       = [c]
       /\ is_store_request c = true.
Proof.
  assert (H : RunImpl (Run_deleteActivities (Some ["10"; "x"])) test_profile
              = Some (true, record_call (RemoveActions [10]) test_profile))
    by reflexivity.
  destruct (RunImpl_one_store_request _ _ _ _ H) as (Hrouter & _ & Hcall).
  split; [exact H|]. split; [exact Hrouter | exact Hcall].
Defined.

Lemma deleteActivities_all_rejected_witness :
  Forall (fun id => fst (StringToInt64 id) = false) ["x"; ""; "1.5"]
  /\ DeleteActivities_RunImpl (Some ["x"; ""; "1.5"]) test_profile
     = Some (true, record_call (RemoveActions []) test_profile).
Proof.
  assert (H : Forall (fun id => fst (StringToInt64 id) = false)
                ["x"; ""; "1.5"])
    by (repeat constructor).
  split; [exact H|].
  apply (deleteActivities_all_rejected ["x"; ""; "1.5"] test_profile H).
Defined.

End MoreConcrete.

Section NaClConcrete.

Import NaCl.

Local Open Scope string_scope.

Lemma no_plugin_all_disabled_witness :
  @GetPluginInfoArray no_plugin_services = []
  /\ @AddPluginList no_plugin_services []
     = Some [ {| key := "NaCl plugin"; value := "Disabled" |}; line_break ]
  /\ @AddNaClInfo no_plugin_services []
     = Some [ {| key := "Native Client (non-portable, outside web store)";
                 value := "Disabled" |}; line_break ].
Proof.
  assert (H : @GetPluginInfoArray no_plugin_services = []) by reflexivity.
  destruct (@no_plugin_all_disabled no_plugin_services [] true H)
    as (Hplugins & _ & Hnacl).
  split; [exact H|]. split; [exact Hplugins | exact Hnacl].
Defined.

Lemma PopulatePageInformation_shape_witness :
  pnacl_path_validated_ validated_handler = true
  /\ exists pairs,
       @PopulatePageInformation sample_services validated_handler
       = Some [("naclInfo", pairs)]
       /\ length pairs = 12%nat.
Proof.
  assert (H : pnacl_path_validated_ validated_handler = true) by reflexivity.
  destruct (@PopulatePageInformation_shape sample_services validated_handler H)
    as (pairs & Hpage & _ & Hlength).
  split; [exact H|]. exists pairs. split; [exact Hpage|].
  rewrite Hlength. reflexivity.
Defined.

Lemma no_response_before_ready_witness :
  exists handler effects,
    @deliver_all sample_services (fst NaClDomHandler_new) sample_stimuli
    = Some (handler, effects)
    /\ Exists (fun e => is_response e = true) effects
    /\ RequestNaClInfo ∈ sample_stimuli
    /\ GotPlugins ∈ sample_stimuli.
Proof.
  destruct (@deliver_all sample_services (fst NaClDomHandler_new)
              sample_stimuli) as [[handler effects]|] eqn:Hrun;
    [|cbv in Hrun; discriminate Hrun].
  assert (Hex : Exists (fun e => is_response e = true) effects).
  { cbv in Hrun. injection Hrun as _ <-.
    apply Exists_cons_tl, Exists_cons_hd. reflexivity. }
  destruct (@no_response_before_ready sample_services sample_stimuli
              handler effects Hrun Hex) as (Hreq & Hgot & _).
  exists handler, effects.
  split; [reflexivity|]. split; [exact Hex|]. split; [exact Hreq | exact Hgot].
Defined.

Lemma one_response_per_reply_witness :
  @browser_behaves sample_services (fst NaClDomHandler_new) 0 sample_stimuli
  /\ exists handler effects,
       @deliver_all sample_services (fst NaClDomHandler_new) sample_stimuli
       = Some (handler, effects)
       /\ length (filter (fun e => is_response e = true) effects) = 2%nat.
Proof.
  assert (Hbehaves : @browser_behaves sample_services (fst NaClDomHandler_new)
                       0 sample_stimuli).
  { cbv. repeat split; lia. }
  destruct (@deliver_all sample_services (fst NaClDomHandler_new)
              sample_stimuli) as [[handler effects]|] eqn:Hrun;
    [|cbv in Hrun; discriminate Hrun].
  destruct (@one_response_per_reply sample_services sample_stimuli
              handler effects Hbehaves Hrun) as [_ Hcount].
  split; [exact Hbehaves|]. exists handler, effects.
  split; [reflexivity | exact Hcount].
Defined.

End NaClConcrete.

Section IMEConcrete.

Import IME.

Lemma testing_round_trip_witness :
  aura_linux sample_aura_linux
  /\ InitializeInputMethodForTesting false sample_aura_linux empty_state
     = Some testing_state
  /\ exists st2,
       ShutdownInputMethodForTesting false sample_aura_linux testing_state
       = Some st2
       /\ instance st2 = None /\ fakes st2 = [].
Proof.
  assert (H : aura_linux sample_aura_linux) by (repeat split).
  destruct (testing_round_trip false sample_aura_linux empty_state H
              eq_refl eq_refl)
    as (st1 & st2 & fake & Hinit & _ & _ & _ & Hshut & Hinst & _ & Hfakes).
  split; [exact H|]. split; [reflexivity|].
  assert (Hst1 : Some st1 = Some testing_state)
    by (rewrite <- Hinit; reflexivity).
  injection Hst1 as ->. exists st2.
  split; [exact Hshut|]. split; [exact Hinst | exact Hfakes].
Defined.

Lemma testing_check_fails_iff_witness :
  aura_linux sample_aura_linux
  /\ InitializeInputMethodForTesting false sample_aura_linux foreign_state
     = None
  /\ ShutdownInputMethodForTesting false sample_aura_linux foreign_state
     = None.
Proof.
  assert (H : aura_linux sample_aura_linux) by (repeat split).
  destruct (testing_check_fails_iff false sample_aura_linux foreign_state H)
    as [Hinit Hshut].
  assert (Hforeign : exists factory,
            instance foreign_state = Some factory
            /\ g_linux_input_method_context_factory foreign_state
               <> Some factory) by (exists 5%nat; split; [reflexivity | discriminate]).
  split; [exact H|].
  split; [apply Hinit, Hforeign | apply Hshut, Hforeign].
Defined.

Lemma testing_initialize_idempotent_witness :
  aura_linux sample_aura_linux
  /\ InitializeInputMethodForTesting false sample_aura_linux empty_state
     = Some testing_state
  /\ InitializeInputMethodForTesting false sample_aura_linux testing_state
     = Some testing_state.
Proof.
  assert (H : aura_linux sample_aura_linux) by (repeat split).
  assert (Hinit : InitializeInputMethodForTesting false sample_aura_linux
                    empty_state = Some testing_state) by reflexivity.
  split; [exact H|]. split; [exact Hinit|].
  apply (testing_initialize_idempotent false sample_aura_linux empty_state
           testing_state H Hinit).
Defined.

Lemma shutdown_mirrors_initialize_witness :
  OS_WIN sample_windows && OS_LINUX sample_windows = false
  /\ (TSFBridge_Initialize
        ∈ added_calls (InitializeInputMethod true sample_windows) empty_state
      <-> TSFBridge_Shutdown
            ∈ added_calls (ShutdownInputMethod true sample_windows) empty_state)
  /\ (CoInitialize
        ∈ added_calls (InitializeInputMethodForTesting true sample_windows)
            empty_state
      <-> CoUninitialize
            ∈ added_calls (ShutdownInputMethodForTesting true sample_windows)
                empty_state).
Proof.
  assert (H : OS_WIN sample_windows && OS_LINUX sample_windows = false)
    by reflexivity.
  destruct (shutdown_mirrors_initialize true sample_windows empty_state H)
    as (_ & Htsf & _ & _ & Hco).
  split; [exact H|]. split; [exact Htsf | exact Hco].
Defined.

End IMEConcrete.
